(** * Quiz bot (src/bot.py): a shallow embedding and its checked properties

    The Python module is embedded function by function.  Python values are
    modelled as follows.

    - [str] is a list of Unicode code points ([N]); [len], slicing and
      indexing count code points, as in Python 3.
    - [int] is [Z]; [datetime] is a number of microseconds ([Z]) and
      [timedelta] a difference of such numbers.
    - the global dict [user_stats] is a [gmap] from user ids to records; the
      per-user dict [context.user_data] is a record with one optional field
      per key the program ever stores (a missing key is [None], reading it
      raises [KeyError]).
    - handlers run in a state-and-exception monad over [World]; calls to the
      chat transport are appended to an outbox and are assumed to return.
    - what the program obtains from outside (clock readings, the text
      extractor, the question-generation model, the random generator) is an
      explicit input; the character tables and the integer parser of the
      Python runtime are the parameters of the class [PyRuntime].
    - the one floating-point expression, the accuracy shown by
      [show_results], is computed in binary64 with the operations of
      [SpecFloat]. *)

From Stdlib Require Import ZArith List String Ascii Lia.
From Stdlib Require Import Floats.SpecFloat.
From stdpp Require Import base option list gmap.

Open Scope Z_scope.

(** ** Strings *)

Definition char := N.
Abbreviation str := (list char).

(** [py "abc"] is the Python string whose code points are those of the
    ASCII literal. *)
Definition py (s : string) : str := N_of_ascii <$> list_ascii_of_string s.

Definition len {A} (l : list A) : Z := Z.of_nat (length l).

(** The character tables and the integer parser of the Python runtime, which
    the module uses through [str.split], [str.strip], [str.lower], the regex
    class [\w] and [int(s)] ([None] when [int] raises [ValueError]). *)
Class PyRuntime := {
  isspace : char → bool;
  isalnum : char → bool;
  lower : str → str;
  int_of_str : str → option Z;
}.

(** The character tables restricted to ASCII: they agree with CPython on
    every code point below 128 and are used for the concrete runs in this
    file. *)
Definition ascii_isspace (c : char) : bool :=
  ((9 <=? c) && (c <=? 13) || (28 <=? c) && (c <=? 32))%N.

Definition ascii_isalnum (c : char) : bool :=
  ((48 <=? c) && (c <=? 57) || (65 <=? c) && (c <=? 90)
   || (97 <=? c) && (c <=? 122))%N.

Definition ascii_lower_char (c : char) : char :=
  (if (65 <=? c) && (c <=? 90) then c + 32 else c)%N.

(** [int(s)] for a string of ASCII decimal digits (the form used in the
    concrete runs below); anything else is rejected. *)
Fixpoint ascii_digits (acc : Z) (s : str) : option Z :=
  match s with
  | [] => Some acc
  | c :: s' =>
      if ((48 <=? c) && (c <=? 57))%N
      then ascii_digits (10 * acc + Z.of_N (c - 48)) s'
      else None
  end.

Definition ascii_int_of_str (s : str) : option Z :=
  match s with
  | [] => None
  | _ => ascii_digits 0 s
  end.

Definition ascii_runtime : PyRuntime :=
  {| isspace := ascii_isspace;
     isalnum := ascii_isalnum;
     lower := fmap ascii_lower_char;
     int_of_str := ascii_int_of_str |}.

Definition chr_question : char := 63%N.
Definition chr_newline : char := 10%N.
Definition chr_formfeed : char := 12%N.
Definition chr_dot : char := 46%N.
Definition chr_underscore : char := 95%N.
Definition chr_space : char := 32%N.

(** Maximal runs of characters satisfying [p], in order.  [cur] holds the
    run being read, reversed. *)
Fixpoint runs_from (p : char → bool) (cur : str) (s : str) : list str :=
  match s with
  | [] => match cur with [] => [] | _ => [rev cur] end
  | c :: s' =>
      if p c then runs_from p (c :: cur) s'
      else match cur with
           | [] => runs_from p [] s'
           | _ => rev cur :: runs_from p [] s'
           end
  end.

Definition runs (p : char → bool) (s : str) : list str := runs_from p [] s.

(** [s.split(sep)] for a one-character separator: the pieces between
    separators, empty pieces included; never the empty list. *)
Fixpoint split_from (sep : char) (cur : str) (s : str) : list str :=
  match s with
  | [] => [rev cur]
  | c :: s' =>
      if N.eqb c sep then rev cur :: split_from sep [] s'
      else split_from sep (c :: cur) s'
  end.

Definition str_split_on (sep : char) (s : str) : list str := split_from sep [] s.

(** [sep.join(l)] *)
Fixpoint str_join (sep : str) (l : list str) : str :=
  match l with
  | [] => []
  | [x] => x
  | x :: l' => x ++ sep ++ str_join sep l'
  end.

(** [s.count(c)] for a one-character [c]. *)
Definition str_count (c : char) (s : str) : Z :=
  len (filter (λ x, x = c) s).

(** Python slicing [l[a:b]] with step 1: negative bounds count from the
    end, and bounds are clamped to the list. *)
Definition slice_bound (n i : Z) : Z :=
  Z.max 0 (Z.min n (if i <? 0 then i + n else i)).

Definition py_slice {A} (l : list A) (a b : Z) : list A :=
  let lo := slice_bound (len l) a in
  let hi := slice_bound (len l) b in
  take (Z.to_nat (hi - lo)) (drop (Z.to_nat lo) l).

(** [l[:b]] *)
Definition py_prefix {A} (l : list A) (b : Z) : list A := py_slice l 0 b.

Section Text.
Context {rt : PyRuntime}.

(** The regex class [\w] on [str] patterns. *)
Definition is_word (c : char) : bool := isalnum c || N.eqb c chr_underscore.

(** [re.findall(r'\b\w+\b', s)]: a match starts at a word boundary, the
    greedy [\w+] takes the whole run of word characters, and the search
    resumes after it; the matches are the maximal runs of word
    characters. *)
Definition findall_words (s : str) : list str := runs is_word s.

(** [s.split()]: the maximal runs of characters that are not whitespace. *)
Definition str_split (s : str) : list str := runs (λ c, negb (isspace c)) s.

Fixpoint lstrip (s : str) : str :=
  match s with
  | c :: s' => if isspace c then lstrip s' else s
  | [] => []
  end.

(** [s.strip()] *)
Definition str_strip (s : str) : str := rev (lstrip (rev (lstrip s))).
End Text.

(** [re.sub(r'\?$', '', s)]: without MULTILINE, [$] matches at the end of
    the string and just before a newline that ends the string, so at most
    one question mark is removed. *)
Definition sub_final_qmark (s : str) : str :=
  match rev s with
  | c :: r =>
      if N.eqb c chr_question then rev r
      else match r with
           | q :: r' =>
               if N.eqb c chr_newline && N.eqb q chr_question
               then rev (c :: r') else s
           | [] => s
           end
  | [] => s
  end.

(** ** Configuration *)

Definition MAX_QUESTIONS_PER_FILE : Z := 50.
Definition MIN_QUESTIONS : Z := 5.
Definition QUESTIONS_PER_BATCH : Z := 5.
Definition MAX_FILES_PER_HOUR : Z := 2.
Definition MAX_FILES_PER_DAY : Z := 5.

(** [timedelta(hours=h)] in microseconds. *)
Definition timedelta_hours (h : Z) : Z := h * 3600 * 1000000.

(** ** Data *)

(** One entry of the module-level dict [user_stats]. *)
Record Stats := {
  file_count : Z;
  last_upload : option Z;
  daily_count : Z;
  last_daily_reset : Z;
}.

(** One element of the list built by [generate_questions]. *)
Record Question := {
  question : str;
  options : list str;
  correct_idx : Z;
}.

(** One element of [user_data['user_answers']]. *)
Record Answer := {
  question_idx : Z;
  selected : Z;
}.

(** The dict [context.user_data] of one user. *)
Record UserData := {
  file_text : option str;
  max_questions : option Z;
  current_questions : option (list Question);
  user_answers : option (list Answer);
  score : option Z;
  total_questions : option Z;
  current_index : option Z;
}.

(** The empty dict, also the result of [user_data.clear()]. *)
Definition empty_data : UserData :=
  {| file_text := None; max_questions := None; current_questions := None;
     user_answers := None; score := None; total_questions := None;
     current_index := None |}.

Definition set_file_text (v : str) (d : UserData) : UserData :=
  {| file_text := Some v; max_questions := max_questions d;
     current_questions := current_questions d; user_answers := user_answers d;
     score := score d; total_questions := total_questions d;
     current_index := current_index d |}.

Definition set_max_questions (v : Z) (d : UserData) : UserData :=
  {| file_text := file_text d; max_questions := Some v;
     current_questions := current_questions d; user_answers := user_answers d;
     score := score d; total_questions := total_questions d;
     current_index := current_index d |}.

Definition set_current_questions (v : list Question) (d : UserData) : UserData :=
  {| file_text := file_text d; max_questions := max_questions d;
     current_questions := Some v; user_answers := user_answers d;
     score := score d; total_questions := total_questions d;
     current_index := current_index d |}.

Definition set_user_answers (v : list Answer) (d : UserData) : UserData :=
  {| file_text := file_text d; max_questions := max_questions d;
     current_questions := current_questions d; user_answers := Some v;
     score := score d; total_questions := total_questions d;
     current_index := current_index d |}.

Definition set_score (v : Z) (d : UserData) : UserData :=
  {| file_text := file_text d; max_questions := max_questions d;
     current_questions := current_questions d; user_answers := user_answers d;
     score := Some v; total_questions := total_questions d;
     current_index := current_index d |}.

Definition set_total_questions (v : Z) (d : UserData) : UserData :=
  {| file_text := file_text d; max_questions := max_questions d;
     current_questions := current_questions d; user_answers := user_answers d;
     score := score d; total_questions := Some v;
     current_index := current_index d |}.

Definition set_current_index (v : Z) (d : UserData) : UserData :=
  {| file_text := file_text d; max_questions := max_questions d;
     current_questions := current_questions d; user_answers := user_answers d;
     score := score d; total_questions := total_questions d;
     current_index := Some v |}.

(** The texts the bot sends, with the values interpolated into them. *)
Inductive Text :=
| TxtWelcome
| TxtLimitExceeded
| TxtUnsupportedType
| TxtDownloading
| TxtProcessing
| TxtExtracted (num_pages max_q : Z)
| TxtProcessingFailed
| TxtCountOutOfRange (max_q : Z)
| TxtGenerating
| TxtNotANumber
| TxtSentSoFar (end_idx total : Z)
| TxtScore (correct total accuracy_tenths : Z).

(** Calls made on the chat transport. *)
Inductive Action :=
| ReplyText (user : Z) (t : Text)
| EditMessageText (user : Z) (t : Text)
| DeleteMessage (user : Z)
| AnswerCallback (user : Z)
| Download (user : Z) (file_type : str)
| SendPoll (user : Z) (question : str) (options : list str)
           (correct_option_id : option Z)
| SendMessage (user : Z) (t : Text) (more_button : bool).

Inductive exn :=
| KeyError (key : string)
| IndexError
| ZeroDivisionError
| ValueError
| TypeError
| AttributeError
| ExternalError.

(** ** The state of the process and the handler monad *)

Record World := {
  user_stats : gmap Z Stats;
  user_data : gmap Z UserData;
  outbox : list Action;
  rng : list nat;
  qg_calls : list str;
}.

Definition initial_world (seed : list nat) : World :=
  {| user_stats := ∅; user_data := ∅; outbox := []; rng := seed;
     qg_calls := [] |}.

Inductive outcome (A : Type) :=
| Ok (a : A)
| Raise (e : exn).
Arguments Ok {A} a.
Arguments Raise {A} e.

Definition Bot (A : Type) : Type := World → outcome A * World.

#[export] Instance Bot_ret : MRet Bot := λ A a w, (Ok a, w).

#[export] Instance Bot_bind : MBind Bot := λ A B f m w,
  match m w with
  | (Ok a, w') => f a w'
  | (Raise e, w') => (Raise e, w')
  end.

Definition raise {A} (e : exn) : Bot A := λ w, (Raise e, w).

(** [try: m except Exception: h] *)
Definition try_except {A} (m : Bot A) (h : exn → Bot A) : Bot A := λ w,
  match m w with
  | (Ok a, w') => (Ok a, w')
  | (Raise e, w') => h e w'
  end.

Definition with_user_stats (f : gmap Z Stats → gmap Z Stats) (w : World) : World :=
  {| user_stats := f (user_stats w); user_data := user_data w;
     outbox := outbox w; rng := rng w; qg_calls := qg_calls w |}.

Definition with_user_data (f : gmap Z UserData → gmap Z UserData) (w : World) : World :=
  {| user_stats := user_stats w; user_data := f (user_data w);
     outbox := outbox w; rng := rng w; qg_calls := qg_calls w |}.

Definition with_outbox (f : list Action → list Action) (w : World) : World :=
  {| user_stats := user_stats w; user_data := user_data w;
     outbox := f (outbox w); rng := rng w; qg_calls := qg_calls w |}.

Definition with_rng (f : list nat → list nat) (w : World) : World :=
  {| user_stats := user_stats w; user_data := user_data w;
     outbox := outbox w; rng := f (rng w); qg_calls := qg_calls w |}.

Definition with_qg_calls (f : list str → list str) (w : World) : World :=
  {| user_stats := user_stats w; user_data := user_data w;
     outbox := outbox w; rng := rng w; qg_calls := f (qg_calls w) |}.

Definition send (a : Action) : Bot unit := λ w,
  (Ok (), with_outbox (λ o, o ++ [a]) w).

(** [context.user_data] of user [u]; a user never seen has the empty dict. *)
Definition data_of (u : Z) (w : World) : UserData :=
  default empty_data (user_data w !! u).

Definition get_data (u : Z) : Bot UserData := λ w, (Ok (data_of u w), w).

Definition update_data (u : Z) (f : UserData → UserData) : Bot unit := λ w,
  (Ok (), with_user_data (λ m, <[u := f (data_of u w)]> m) w).

(** [context.user_data[key]] *)
Definition read_key {A} (u : Z) (key : string) (field : UserData → option A) : Bot A :=
  d ← get_data u;
  match field d with
  | Some v => mret v
  | None => raise (KeyError key)
  end.

Definition get_stats : Bot (gmap Z Stats) := λ w, (Ok (user_stats w), w).

Definition update_stats (f : gmap Z Stats → gmap Z Stats) : Bot unit := λ w,
  (Ok (), with_user_stats f w).

(** ** The random generator *)

(** The generator's next draw below [n]: the state is the sequence of raw
    draws still to come (an exhausted sequence yields zeros). *)
Definition randbelow (n : nat) : Bot nat := λ w,
  (Ok (hd 0%nat (rng w) `mod` n)%nat, with_rng tail w).

(** [random.randint(a, b)] *)
Definition random_randint (a b : Z) : Bot Z :=
  j ← randbelow (Z.to_nat (b - a + 1));
  mret (a + Z.of_nat j).

(** The selection loop of [random.sample]: [n] is the size of the part of
    [pool] not yet drawn from; the drawn element is replaced by the last
    one of that part. *)
Fixpoint sample_loop {A} (k n : nat) (pool : list A) : Bot (list A) :=
  match k with
  | O => mret []
  | S k' =>
      j ← randbelow n;
      match pool !! j, pool !! (n - 1)%nat with
      | Some x, Some y =>
          rest ← sample_loop k' (n - 1)%nat (<[j := y]> pool);
          mret (x :: rest)
      | _, _ => raise IndexError
      end
  end.

(** [random.sample(population, k)]: [k] elements at [k] different positions
    of the population.  Every choice of positions is the result for some
    state of the generator. *)
Definition random_sample {A} (population : list A) (k : nat) : Bot (list A) :=
  if (length population <? k)%nat then raise ValueError
  else sample_loop k (length population) population.

(** ** Python list operations that can fail *)

(** [l[i]] *)
Definition py_index {A} (l : list A) (i : Z) : Bot A :=
  let j := if i <? 0 then i + len l else i in
  if j <? 0 then raise IndexError
  else match l !! Z.to_nat j with
       | Some x => mret x
       | None => raise IndexError
       end.

(** [l[i] = v] *)
Definition py_assign {A} (l : list A) (i : Z) (v : A) : Bot (list A) :=
  let j := if i <? 0 then i + len l else i in
  if (j <? 0) || (len l <=? j) then raise IndexError
  else mret (<[Z.to_nat j := v]> l).

(** ** Question generation *)

(** The text-generation pipeline of one call of [generate_questions]: the
    exception that building it raises, if any (the import and the call of
    [pipeline(...)]), and what the call of attempt [i] on a prompt gives,
    the list of generated texts or the exception it raises. *)
Record Pipeline := {
  construction : option exn;
  generated :> nat → str → outcome (list str);
}.

Definition call_pipeline (qg : Pipeline) (i : nat) (prompt : str) : Bot (list str) := λ w,
  (qg i prompt, with_qg_calls (λ c, c ++ [prompt]) w).

Definition fallback_words : list str :=
  [py "Anatomy"; py "Physiology"; py "Pathology"; py "Pharmacology"].

Section Generation.
Context {rt : PyRuntime}.

Definition long_words (context : str) : list str :=
  filter (λ word, 5 < len word) (findall_words context).

Definition generate_options (context : str) : Bot (list str) :=
  let words := long_words context in
  let words := if len words <? 4 then words ++ fallback_words else words in
  random_sample words 4.

(** The prompt given to the model. *)
Definition model_prompt (context : str) : str :=
  let chunk := str_join [chr_space] (take 300 (str_split context)) in
  py "generate question: " ++ chunk.

(** The text placed in the correct slot:
    [re.sub(r'\?$', '', question.split('?')[0])[:100]]. *)
Definition correct_option (question : str) : Bot str :=
  first ← py_index (str_split_on chr_question question) 0;
  mret (py_prefix (sub_final_qmark first) 100).

(** The loop of [generate_questions]; [i] counts the attempts made. *)
Fixpoint generate_loop (qg : Pipeline) (context : str) (i n : nat)
    (questions : list Question) : Bot (list Question) :=
  match n with
  | O => mret questions
  | S n' =>
      result ← call_pipeline qg i (model_prompt context);
      match result with
      | [] => generate_loop qg context (S i) n' questions
      | generated_text :: _ =>
          let question := str_strip generated_text in
          options ← generate_options context;
          correct_idx ← random_randint 0 3;
          answer ← correct_option question;
          options ← py_assign options correct_idx answer;
          generate_loop qg context (S i) n'
            (questions ++ [{| question := question; options := options;
                              correct_idx := correct_idx |}])
      end
  end.

Definition generate_questions (qg : Pipeline) (context : str) (num_questions : Z)
    : Bot (list Question) :=
  match construction qg with
  | Some e => raise e
  | None => generate_loop qg context 0 (Z.to_nat num_questions) []
  end.
End Generation.

(** ** Usage tracking *)

Definition new_stats (now : Z) : Stats :=
  {| file_count := 0; last_upload := None; daily_count := 0;
     last_daily_reset := now |}.

Definition reset_daily (now : Z) (s : Stats) : Stats :=
  {| file_count := file_count s; last_upload := last_upload s;
     daily_count := 0; last_daily_reset := now |}.

Definition record_upload (now : Z) (s : Stats) : Stats :=
  {| file_count := file_count s + 1; last_upload := Some now;
     daily_count := daily_count s; last_daily_reset := last_daily_reset s |}.

(** [reset_user_stats(user_id)] on the dict: [t_new] is the clock reading
    taken when the record is created, [now] the one taken afterwards. *)
Definition reset_user_stats (user_id : Z) (t_new now : Z)
    (stats : gmap Z Stats) : gmap Z Stats :=
  let stats :=
    match stats !! user_id with
    | None => <[user_id := new_stats t_new]> stats
    | Some _ => stats
    end in
  match stats !! user_id with
  | Some s =>
      if timedelta_hours 24 <? now - last_daily_reset s
      then <[user_id := reset_daily now s]> stats
      else stats
  | None => stats
  end.

(** [check_limits(user_id)] with the clock reading [now]; it only reads the
    dict. *)
Definition check_limits (user_id : Z) (now : Z) (stats : gmap Z Stats) : bool :=
  match stats !! user_id with
  | None => true
  | Some user_data =>
      let hourly :=
        match last_upload user_data with
        | Some t => (now - t <? timedelta_hours 1)
                    && (MAX_FILES_PER_HOUR <=? file_count user_data)
        | None => false
        end in
      if hourly then false
      else if MAX_FILES_PER_DAY <=? daily_count user_data then false
      else true
  end.

(** ** Handlers *)

(** An uploaded document: its name, when it has one ([file_name] is
    optional in an update), and what the extraction libraries do on the
    downloaded file ([None] when the library raises). *)
Record Document := {
  file_name : option str;
  pdf_text : option str;
  slide_shape_texts : option (list str);
}.

(** The clock readings of one run of [handle_document], in the order of the
    calls of [datetime.now()]. *)
Record DocClock := {
  t_created : Z;
  t_reset : Z;
  t_check : Z;
  t_upload : Z;
}.

Definition supported_types : list str := [py "pdf"; py "ppt"; py "pptx"].

Definition from_external {A} (r : option A) : Bot A :=
  match r with
  | Some a => mret a
  | None => raise ExternalError
  end.

Definition extract_text_from_file (doc : Document) (file_type : str) : Bot str :=
  if bool_decide (file_type = py "pdf") then from_external (pdf_text doc)
  else if bool_decide (file_type ∈ [py "pptx"; py "ppt"]) then
    text ← from_external (slide_shape_texts doc);
    mret (str_join [chr_newline] text)
  else mret [].

(** [float(z)]: the binary64 number nearest to an integer, ties to even. *)
Definition float_of_int (z : Z) : spec_float := binary_normalize 53 1024 z 0 false.

(** [round(x, 1)] in tenths: the decimal with one digit after the point
    nearest to the exact value of the binary64 number [x], ties to even. *)
Definition round_tenths (x : spec_float) : Z :=
  match x with
  | S754_finite s m e =>
      let num := 10 * Z.pos m in
      let den := 2 ^ (- e) in
      let q := if 0 <=? e then num * 2 ^ e else num / den in
      let r := if 0 <=? e then 0 else num mod den in
      let k := if 2 * r <? den then q
               else if den <? 2 * r then q + 1
               else if Z.even q then q else q + 1 in
      if s then - k else k
  | _ => 0
  end.

(** [round(correct / total * 100, 1)] in tenths, for [total ≠ 0]: the
    quotient and the product are the binary64 operations.  The quotient of
    two integers is the one Python computes when both are below 2^53 in
    magnitude (here they are lengths of lists), and the result is then
    finite. *)
Definition accuracy_tenths (correct total : Z) : Z :=
  round_tenths
    (SFmul 53 1024
       (SFdiv 53 1024 (float_of_int correct) (float_of_int total))
       (float_of_int 100)).

(** The generator expression summed by [show_results]. *)
Fixpoint count_correct (user_id : Z) (answers : list Answer) : Bot Z :=
  match answers with
  | [] => mret 0
  | ans :: rest =>
      questions ← read_key user_id "current_questions" current_questions;
      q ← py_index questions (question_idx ans);
      n ← count_correct user_id rest;
      mret ((if selected ans =? correct_idx q then 1 else 0) + n)
  end.

Definition show_results (user_id : Z) : Bot unit :=
  total ← read_key user_id "total_questions" total_questions;
  answers ← read_key user_id "user_answers" user_answers;
  correct ← count_correct user_id answers;
  accuracy ← (if total =? 0 then raise ZeroDivisionError
              else mret (accuracy_tenths correct total));
  send (SendMessage user_id (TxtScore correct total accuracy) false);;
  update_data user_id (λ _, empty_data).

(** The two values of [Poll.type]. *)
Inductive PollType := REGULAR | QUIZ.

(** The keyword arguments of a call of [telegram.Poll]; [None] stands for
    an argument the call does not pass. *)
Record PollArgs := {
  kw_id : option str;
  kw_question : option str;
  kw_options : option (list str);
  kw_total_voter_count : option Z;
  kw_is_closed : option bool;
  kw_is_anonymous : option bool;
  kw_type : option PollType;
  kw_allows_multiple_answers : option bool;
  kw_correct_option_id : option Z;
}.

(** A [telegram.Poll] object. *)
Record Poll := {
  poll_id : str;
  poll_question : str;
  poll_options : list str;
  poll_total_voter_count : Z;
  poll_is_closed : bool;
  poll_is_anonymous : bool;
  poll_type : PollType;
  poll_allows_multiple_answers : bool;
  poll_correct_option_id : option Z;
}.

(** The constructor [telegram.Poll(...)] of the releases of the library
    that provide [Poll.QUIZ], [PollAnswerHandler], [Updater] and [Filters]:
    [id], [question], [options], [total_voter_count], [is_closed],
    [is_anonymous], [type] and [allows_multiple_answers] are required,
    [correct_option_id] is optional.  A call that leaves out a required
    argument raises [TypeError]. *)
Definition Poll_init (kw : PollArgs) : Bot Poll :=
  match kw_id kw, kw_question kw, kw_options kw, kw_total_voter_count kw,
        kw_is_closed kw, kw_is_anonymous kw, kw_type kw,
        kw_allows_multiple_answers kw with
  | Some id, Some question, Some options, Some total_voter_count,
    Some is_closed, Some is_anonymous, Some type, Some allows_multiple_answers =>
      mret {| poll_id := id; poll_question := question; poll_options := options;
              poll_total_voter_count := total_voter_count;
              poll_is_closed := is_closed; poll_is_anonymous := is_anonymous;
              poll_type := type;
              poll_allows_multiple_answers := allows_multiple_answers;
              poll_correct_option_id := kw_correct_option_id kw |}
  | _, _, _, _, _, _, _, _ => raise TypeError
  end.

(** The arguments [send_question_batch] passes to the constructor. *)
Definition poll_kwargs (q : Question) : PollArgs :=
  {| kw_id := None;
     kw_question := Some (py_prefix (question q) 300);
     kw_options := Some (options q);
     kw_total_voter_count := None;
     kw_is_closed := None;
     kw_is_anonymous := None;
     kw_type := Some QUIZ;
     kw_allows_multiple_answers := None;
     kw_correct_option_id := Some (correct_idx q) |}.

(** [context.bot.send_poll] with the fields of a poll. *)
Definition send_poll (user_id : Z) (poll : Poll) : Bot unit :=
  send (SendPoll user_id (poll_question poll) (poll_options poll)
          (poll_correct_option_id poll)).

(** The call of [send_poll] for a poll that holds the arguments prepared
    for question [q]. *)
Definition poll_of (user_id : Z) (q : Question) : Action :=
  SendPoll user_id (py_prefix (question q) 300) (options q) (Some (correct_idx q)).

Fixpoint send_polls (user_id : Z) (batch : list Question) : Bot unit :=
  match batch with
  | [] => mret ()
  | q :: rest =>
      poll ← Poll_init (poll_kwargs q);
      send_poll user_id poll;;
      send_polls user_id rest
  end.

(** The first part of [send_question_batch]: the loop over the slice, then
    [current_index] is stored; returns [end_idx] and the number of
    questions. *)
Definition send_batch_and_advance (user_id : Z) : Bot (Z * Z) :=
  questions ← read_key user_id "current_questions" current_questions;
  start_idx ← read_key user_id "current_index" current_index;
  let end_idx := start_idx + QUESTIONS_PER_BATCH in
  let batch := py_slice questions start_idx end_idx in
  send_polls user_id batch;;
  update_data user_id (set_current_index end_idx);;
  mret (end_idx, len questions).

Definition send_question_batch (user_id : Z) : Bot unit :=
  '(end_idx, total) ← send_batch_and_advance user_id;
  if end_idx <? total then
    send (SendMessage user_id (TxtSentSoFar end_idx total) true)
  else show_results user_id.

Definition next_batch (user_id : Z) : Bot unit :=
  send (AnswerCallback user_id);;
  send (DeleteMessage user_id);;
  send_question_batch user_id.

Definition handle_poll_answer (user_id : Z) (option_ids : list Z) : Bot unit :=
  d ← get_data user_id;
  match user_answers d with
  | None => update_data user_id (set_user_answers [])
  | Some _ => mret ()
  end;;
  answers ← read_key user_id "user_answers" user_answers;
  choice ← py_index option_ids 0;
  update_data user_id
    (set_user_answers
       (answers ++ [{| question_idx := len answers; selected := choice |}])).

Definition start (user_id : Z) (t_new now : Z) : Bot unit :=
  update_stats (reset_user_stats user_id t_new now);;
  send (ReplyText user_id TxtWelcome).

Section Handlers.
Context {rt : PyRuntime}.

Definition file_type_of (name : str) : str :=
  lower (List.last (str_split_on chr_dot name) []).

Definition process_document (user_id : Z) (doc : Document) (file_type : str) : Bot unit :=
  text_content ← extract_text_from_file doc file_type;
  match text_content with
  | [] => raise ValueError
  | _ =>
      let num_pages := str_count chr_formfeed text_content + 1 in
      let max_q := Z.min MAX_QUESTIONS_PER_FILE (Z.max MIN_QUESTIONS (num_pages * 2)) in
      send (EditMessageText user_id (TxtExtracted num_pages max_q));;
      update_data user_id (set_file_text text_content);;
      update_data user_id (set_max_questions max_q);;
      update_data user_id (set_current_questions []);;
      update_data user_id (set_user_answers []);;
      update_data user_id (set_score 0)
  end.

Definition handle_document (user_id : Z) (doc : Document) (clk : DocClock) : Bot unit :=
  update_stats (reset_user_stats user_id (t_created clk) (t_reset clk));;
  stats ← get_stats;
  if negb (check_limits user_id (t_check clk) stats) then
    send (ReplyText user_id TxtLimitExceeded)
  else
    match file_name doc with
    | None => raise AttributeError
    | Some name =>
        let file_type := file_type_of name in
        if negb (bool_decide (file_type ∈ supported_types)) then
          send (ReplyText user_id TxtUnsupportedType)
        else
          stats ← get_stats;
          match stats !! user_id with
          | None => raise (KeyError "user_id")
          | Some s =>
              update_stats (<[user_id := record_upload (t_upload clk) s]>);;
              send (ReplyText user_id TxtDownloading);;
              send (Download user_id file_type);;
              send (EditMessageText user_id TxtProcessing);;
              try_except (process_document user_id doc file_type)
                (λ _, send (EditMessageText user_id TxtProcessingFailed))
          end
    end.

Definition count_session (user_id : Z) (qg : Pipeline) (text : str) : Bot unit :=
  match int_of_str text with
  | None => raise ValueError
  | Some num_questions =>
      d ← get_data user_id;
      let max_q := default MIN_QUESTIONS (max_questions d) in
      if negb ((MIN_QUESTIONS <=? num_questions) && (num_questions <=? max_q)) then
        send (ReplyText user_id (TxtCountOutOfRange max_q))
      else
        text_content ← read_key user_id "file_text" file_text;
        send (ReplyText user_id TxtGenerating);;
        questions ← generate_questions qg text_content num_questions;
        update_data user_id (set_total_questions (len questions));;
        update_data user_id (set_current_questions questions);;
        update_data user_id (set_current_index 0);;
        send (DeleteMessage user_id);;
        send_question_batch user_id
  end.

(** [except ValueError] lets every other exception through. *)
Definition handle_question_count (user_id : Z) (qg : Pipeline) (text : str) : Bot unit :=
  try_except (count_session user_id qg text)
    (λ e, match e with
          | ValueError => send (ReplyText user_id TxtNotANumber)
          | _ => raise e
          end).
End Handlers.

(** ** The dispatcher *)

Inductive Event :=
| EvStart (user_id : Z) (t_new now : Z)
| EvDocument (user_id : Z) (doc : Document) (clk : DocClock)
| EvText (user_id : Z) (qg : Pipeline) (text : str)
| EvNextBatch (user_id : Z)
| EvPollAnswer (user_id : Z) (option_ids : list Z).

Section Dispatcher.
Context {rt : PyRuntime}.

Definition handle (e : Event) : Bot unit :=
  match e with
  | EvStart u t_new now => start u t_new now
  | EvDocument u doc clk => handle_document u doc clk
  | EvText u qg text => handle_question_count u qg text
  | EvNextBatch u => next_batch u
  | EvPollAnswer u ids => handle_poll_answer u ids
  end.

(** An exception that leaves a handler is logged by the dispatcher, which
    goes on with the next update: the state is the one the handler left. *)
Definition step (w : World) (e : Event) : World := snd (handle e w).

Definition run (evs : list Event) (w : World) : World := foldl step w evs.

(** Whether [handle_document] for [user_id] in state [w] passes the quota
    gate and the file-type check. *)
Definition admitted (user_id : Z) (doc : Document) (clk : DocClock) (w : World) : bool :=
  check_limits user_id (t_check clk)
    (reset_user_stats user_id (t_created clk) (t_reset clk) (user_stats w))
  && match file_name doc with
     | Some name => bool_decide (file_type_of name ∈ supported_types)
     | None => false
     end.

(** The upload time of event [e] when it is a document of [user_id] that
    is admitted in state [w]. *)
Definition admitted_upload (user_id : Z) (e : Event) (w : World) : list Z :=
  match e with
  | EvDocument u doc clk =>
      if bool_decide (u = user_id) && admitted u doc clk w
      then [t_upload clk] else []
  | _ => []
  end.

(** The upload times of the documents of [user_id] admitted along a run. *)
Fixpoint admitted_uploads (user_id : Z) (evs : list Event) (w : World) : list Z :=
  match evs with
  | [] => []
  | e :: evs' =>
      admitted_upload user_id e w ++ admitted_uploads user_id evs' (step w e)
  end.
End Dispatcher.

(** The counters of a user as the dict holds them (a user without a record
    has made no upload). *)
Definition uploads_of (user_id : Z) (stats : gmap Z Stats) : Z :=
  from_option file_count 0 (stats !! user_id).

Definition last_upload_of (user_id : Z) (stats : gmap Z Stats) : option Z :=
  stats !! user_id ≫= last_upload.

Definition daily_of (user_id : Z) (stats : gmap Z Stats) : Z :=
  from_option daily_count 0 (stats !! user_id).

(** ** Notions used in the statements *)

(** [w'] differs from [w] in the state of the random generator only. *)
Definition rng_only (w w' : World) : Prop := ∃ g, w' = with_rng (λ _, g) w.

(** The text before the first occurrence of [sep]. *)
Fixpoint before (sep : char) (s : str) : str :=
  match s with
  | [] => []
  | c :: s' => if N.eqb c sep then [] else c :: before sep s'
  end.

(** The number of calls of the pipeline made by a loop of [n] attempts
    numbered from [i]: the loop stops at the first call that raises. *)
Fixpoint attempts (qg : Pipeline) (prompt : str) (i n : nat) : nat :=
  match n with
  | O => O
  | S n' =>
      match qg i prompt with
      | Raise _ => 1
      | Ok _ => S (attempts qg prompt (S i) n')
      end
  end.

(** The number of calls of the pipeline made by [generate_questions]: none
    when the pipeline cannot be built. *)
Definition calls_made (qg : Pipeline) (prompt : str) (n : nat) : nat :=
  match construction qg with
  | Some _ => O
  | None => attempts qg prompt 0 n
  end.

(** A pipeline that is built and returns the same texts at every call. *)
Definition answering (texts : list str) : Pipeline :=
  {| construction := None; generated := λ _ _, Ok texts |}.

(** The text [generate_questions] stores in the correct slot for a
    generated question: the text before the first question mark, a final
    question mark removed, cut to 100 characters. *)
Definition answer_text (question : str) : str :=
  py_prefix (sub_final_qmark (before chr_question question)) 100.

(** What holds of every record built by [generate_questions]. *)
Definition well_formed (q : Question) : Prop :=
  length (options q) = 4%nat
  ∧ 0 ≤ correct_idx q ≤ 3
  ∧ options q !! Z.to_nat (correct_idx q) = Some (answer_text (question q))
  ∧ len (answer_text (question q)) ≤ 100.

(** [w'] is [w] after [k] calls of the pipeline on [prompt] and any number
    of draws from the random generator. *)
Definition after_calls (prompt : str) (k : nat) (w w' : World) : Prop :=
  user_stats w' = user_stats w ∧ user_data w' = user_data w
  ∧ outbox w' = outbox w
  ∧ qg_calls w' = qg_calls w ++ replicate k prompt.

(** A handler that leaves the dict [user_stats] as it found it. *)
Definition keeps_stats {A} (m : Bot A) : Prop :=
  ∀ w, user_stats (snd (m w)) = user_stats w.

(** The two assignments of [handle_document] that charge an upload. *)
Definition charge (user_id : Z) (now : Z) (stats : gmap Z Stats) : gmap Z Stats :=
  match stats !! user_id with
  | Some s => <[user_id := record_upload now s]> stats
  | None => stats
  end.

(** A session as [handle_question_count] leaves it before the first batch:
    the questions are stored, no answer has arrived, the cursor is 0. *)
Definition session_of (text : str) (questions : list Question) : UserData :=
  {| file_text := Some text; max_questions := Some MIN_QUESTIONS;
     current_questions := Some questions; user_answers := Some [];
     score := Some 0; total_questions := Some (len questions);
     current_index := Some 0 |}.

(** The process state in which user [u] has the dict [d] and nothing else
    has happened. *)
Definition world_with (u : Z) (d : UserData) : World :=
  with_user_data (λ m, <[u := d]> m) (initial_world []).

(** A document that uploads and extracts well, and the clock of an upload
    whose four readings are all [t]. *)
Definition sample_pdf : Document :=
  {| file_name := Some (py "notes.pdf"); pdf_text := Some (py "heart");
     slide_shape_texts := None |}.

Definition at_time (t : Z) : DocClock :=
  {| t_created := t; t_reset := t; t_check := t; t_upload := t |}.

(** Twelve questions, for the run of three batches. *)
Definition sample_question : Question :=
  {| question := py "What pumps blood?";
     options := [py "Anatomy"; py "What pumps blood"; py "Pathology"; py "Physiology"];
     correct_idx := 1 |}.

Definition twelve_questions : list Question := replicate 12 sample_question.

(** Whether a call on the transport is [send_poll]. *)
Definition is_poll (a : Action) : bool :=
  match a with SendPoll _ _ _ _ => true | _ => false end.

Section Candidates.
Context {rt : PyRuntime}.

(** The list [generate_options] samples from. *)
Definition candidates (context : str) : list str :=
  if len (long_words context) <? 4
  then long_words context ++ fallback_words
  else long_words context.
End Candidates.

(** What the extraction libraries give for a file of type [file_type]:
    [None] when the library raises. *)
Definition extraction (doc : Document) (file_type : str) : option str :=
  if bool_decide (file_type = py "pdf") then pdf_text doc
  else if bool_decide (file_type ∈ [py "pptx"; py "ppt"])
       then str_join [chr_newline] <$> slide_shape_texts doc
       else Some [].

(** The number of questions offered for an extracted text. *)
Definition offered_questions (text_content : str) : Z :=
  Z.min MAX_QUESTIONS_PER_FILE
    (Z.max MIN_QUESTIONS ((str_count chr_formfeed text_content + 1) * 2)).

(** The dict of a user after a document has been processed: five keys are
    stored, the others are left as they were. *)
Definition uploaded (text_content : str) (d : UserData) : UserData :=
  {| file_text := Some text_content;
     max_questions := Some (offered_questions text_content);
     current_questions := Some []; user_answers := Some [];
     score := Some 0; total_questions := total_questions d;
     current_index := current_index d |}.

(** Answers numbered by their position in the list. *)
Definition numbered (answers : list Answer) : Prop :=
  ∀ i a, answers !! i = Some a → question_idx a = Z.of_nat i.

(** Every stored answer list is numbered. *)
Definition answers_numbered (w : World) : Prop :=
  ∀ u answers, user_answers (data_of u w) = Some answers → numbered answers.

(** A handler that keeps the stored answer lists numbered. *)
Definition keeps_numbering {A} (m : Bot A) : Prop :=
  ∀ w, answers_numbered w → answers_numbered (snd (m w)).

(** Whether answer [a] selects the correct option of the question it is
    attributed to. *)
Definition is_correct (questions : list Question) (a : Answer) : bool :=
  match questions !! Z.to_nat (question_idx a) with
  | Some q => selected a =? correct_idx q
  | None => false
  end.

(** The polls of an outbox, in order. *)
Definition polls_of (o : list Action) : list Action := List.filter is_poll o.

(** A handler that sends no poll. *)
Definition sends_no_poll {A} (m : Bot A) : Prop :=
  ∀ w, polls_of (outbox (snd (m w))) = polls_of (outbox w).

Section KeptTexts.
Context {rt : PyRuntime}.

(** The question texts a loop of [n] attempts numbered from [i] keeps: the
    stripped first text of each non-empty model output, up to the first
    call that raises. *)
Fixpoint kept_texts (qg : Pipeline) (prompt : str) (i n : nat) : list str :=
  match n with
  | O => []
  | S n' =>
      match qg i prompt with
      | Ok (generated_text :: _) =>
          str_strip generated_text :: kept_texts qg prompt (S i) n'
      | Ok [] => kept_texts qg prompt (S i) n'
      | Raise _ => []
      end
  end.
End KeptTexts.

Section Ingestion.
Context {rt : PyRuntime}.

(** The text [handle_document] stores for an upload: the extracted text
    when the upload is admitted and the extraction returns a non-empty
    text. *)
Definition ingested (user_id : Z) (doc : Document) (clk : DocClock) (w : World)
    : option str :=
  if admitted user_id doc clk w then
    match file_name doc with
    | Some name =>
        match extraction doc (file_type_of name) with
        | Some (c :: text) => Some (c :: text)
        | _ => None
        end
    | None => None
    end
  else None.
End Ingestion.

Section Trimmed.
Context {rt : PyRuntime}.

(** A text with no whitespace at either end. *)
Definition trimmed (s : str) : Prop :=
  (∀ c, head s = Some c → isspace c = false)
  ∧ (∀ c, last s = Some c → isspace c = false).
End Trimmed.

(** * Properties *)

(** ** Reasoning about handlers *)

Lemma bind_ok {A B} (m : Bot A) (f : A → Bot B) w a w' :
  m w = (Ok a, w') → (m ≫= f) w = f a w'.
Proof. intros E. unfold mbind, Bot_bind. by rewrite E. Qed.

Lemma bind_raise {A B} (m : Bot A) (f : A → Bot B) w e w' :
  m w = (Raise e, w') → (m ≫= f) w = (Raise e, w').
Proof. intros E. unfold mbind, Bot_bind. by rewrite E. Qed.

(** ** Strings and slices *)

Lemma len_nonneg {A} (l : list A) : 0 ≤ len l.
Proof. unfold len. lia. Qed.

Lemma slice_bound_nonneg (n i : Z) :
  0 ≤ n → 0 ≤ i → slice_bound n i = Z.min n i.
Proof.
  intros Hn Hi. unfold slice_bound.
  destruct (Z.ltb_spec i 0); lia.
Qed.

(** A slice with bounds inside [0, ∞). *)
Lemma py_slice_nonneg {A} (l : list A) (a b : Z) :
  0 ≤ a → a ≤ b →
  py_slice l a b = take (Z.to_nat (b - a)) (drop (Z.to_nat a) l).
Proof.
  intros Ha Hb. unfold py_slice.
  rewrite !slice_bound_nonneg by (auto using len_nonneg; lia).
  unfold len. set (n := length l).
  destruct (Z.le_gt_cases (Z.of_nat n) a) as [Hle|Hlt].
  - rewrite !drop_ge by (fold n; lia). by rewrite !take_nil.
  - rewrite (Z.min_r _ a) by lia.
    destruct (Z.le_gt_cases (Z.of_nat n) b) as [Hle'|Hlt'].
    + rewrite (Z.min_l _ b) by lia.
      rewrite !take_ge; [done| |]; rewrite length_drop; fold n; lia.
    + by rewrite (Z.min_r _ b) by lia.
Qed.

Lemma py_prefix_take {A} (l : list A) (b : Z) :
  0 ≤ b → py_prefix l b = take (Z.to_nat b) l.
Proof.
  intros Hb. unfold py_prefix. rewrite py_slice_nonneg by lia.
  by rewrite Z.sub_0_r.
Qed.

Lemma py_prefix_len {A} (l : list A) (b : Z) : 0 ≤ b → len (py_prefix l b) ≤ b.
Proof.
  intros Hb. rewrite py_prefix_take by done. unfold len.
  rewrite length_take. lia.
Qed.

(** ** Sampling *)

Lemma randbelow_run (n : nat) (w : World) :
  randbelow n w = (Ok (hd 0%nat (rng w) `mod` n)%nat, with_rng tail w).
Proof. done. Qed.

(** One step of the selection loop keeps, as a multiset, the part of the
    pool still to draw from together with the element drawn. *)
Lemma sample_step_perm {A} (pool : list A) (n j : nat) (x y : A) :
  (j < n)%nat → pool !! j = Some x → pool !! (n - 1)%nat = Some y →
  x :: take (n - 1) (<[j := y]> pool) ≡ₚ take n pool.
Proof.
  intros Hj Hx Hy. destruct n as [|m]; [lia|].
  replace (S m - 1)%nat with m in * by lia.
  rewrite (take_S_r pool m y) by done.
  destruct (decide (j = m)) as [->|Hne].
  - rewrite take_insert_ge by lia.
    assert (x = y) as -> by congruence.
    apply Permutation_cons_append.
  - rewrite take_insert_lt by lia.
    set (l := take m pool).
    assert (Hl : l !! j = Some x).
    { unfold l. rewrite lookup_take_lt by lia. done. }
    rewrite insert_take_drop by (apply lookup_lt_Some in Hl; done).
    rewrite <- (take_drop_middle l j x Hl) at 3.
    generalize (take j l) (drop (S j) l). intros l1 l2.
    rewrite <- (Permutation_middle l1 l2 y).
    rewrite <- (Permutation_cons_append (l1 ++ x :: l2) y).
    rewrite <- (Permutation_middle l1 l2 x).
    apply perm_swap.
Qed.

Lemma with_rng_twice (f g : list nat → list nat) (w : World) :
  with_rng f (with_rng g w) = with_rng (λ s, f (g s)) w.
Proof. done. Qed.

Lemma rng_only_refl (w : World) : rng_only w w.
Proof. exists (rng w). by destruct w. Qed.

Lemma rng_only_trans (w1 w2 w3 : World) :
  rng_only w1 w2 → rng_only w2 w3 → rng_only w1 w3.
Proof. intros [g ->] [g' ->]. by exists g'. Qed.

Lemma rng_only_tail (w : World) : rng_only w (with_rng tail w).
Proof. by exists (tail (rng w)). Qed.

Lemma sample_loop_spec {A} (k : nat) :
  ∀ (n : nat) (pool : list A) (w : World),
    (k ≤ n ≤ length pool)%nat →
    ∃ res w', sample_loop k n pool w = (Ok res, w') ∧ rng_only w w'
              ∧ length res = k ∧ res ⊆+ take n pool.
Proof.
  induction k as [|k IH]; intros n pool w Hn; simpl.
  - exists [], w. split; [done|]. split; [apply rng_only_refl|].
    split; [done|]. apply submseteq_nil_l.
  - assert (Hj : (hd 0%nat (rng w) `mod` n < n)%nat)
      by (apply Nat.mod_upper_bound; lia).
    set (j := (hd 0%nat (rng w) `mod` n)%nat) in *.
    destruct (lookup_lt_is_Some_2 pool j) as [x Hx]; [lia|].
    destruct (lookup_lt_is_Some_2 pool (n - 1)) as [y Hy]; [lia|].
    destruct (IH (n - 1)%nat (<[j := y]> pool) (with_rng tail w))
      as (rest & w' & Hrun & Hfr & Hlen & Hsub).
    { rewrite length_insert. lia. }
    exists (x :: rest), w'. split; [|split; [|split]].
    + rewrite (bind_ok _ _ _ _ _ (randbelow_run n w)). fold j.
      rewrite Hx, Hy. by rewrite (bind_ok _ _ _ _ _ Hrun).
    + eapply rng_only_trans; [apply rng_only_tail|done].
    + simpl. by rewrite Hlen.
    + rewrite <- (sample_step_perm pool n j x y) by done.
      by apply submseteq_skip.
Qed.

Lemma random_sample_spec {A} (population : list A) (k : nat) (w : World) :
  (k ≤ length population)%nat →
  ∃ res w', random_sample population k w = (Ok res, w') ∧ rng_only w w'
            ∧ length res = k ∧ res ⊆+ population.
Proof.
  intros Hk. unfold random_sample.
  destruct (Nat.ltb_spec (length population) k); [lia|].
  destruct (sample_loop_spec k (length population) population w)
    as (res & w' & Hrun & Hfr & Hlen & Hsub); [lia|].
  exists res, w'. by rewrite firstn_all in Hsub.
Qed.

Lemma random_randint_spec (a b : Z) (w : World) :
  a ≤ b →
  ∃ i, random_randint a b w = (Ok i, with_rng tail w) ∧ a ≤ i ≤ b.
Proof.
  intros Hab. unfold random_randint.
  rewrite (bind_ok _ _ _ _ _ (randbelow_run _ w)).
  eexists. split; [done|].
  assert ((hd 0%nat (rng w) `mod` Z.to_nat (b - a + 1) < Z.to_nat (b - a + 1))%nat)
    by (apply Nat.mod_upper_bound; lia).
  lia.
Qed.

Section OptionsProperties.
Context {rt : PyRuntime}.

Lemma candidates_enough (context : str) : (4 ≤ length (candidates context))%nat.
Proof.
  unfold candidates, len.
  destruct (Z.ltb_spec (Z.of_nat (length (long_words context))) 4).
  - rewrite length_app. simpl. lia.
  - lia.
Qed.

Lemma generate_options_run (context : str) (w : World) :
  ∃ opts w', generate_options context w = (Ok opts, w') ∧ rng_only w w'
             ∧ length opts = 4%nat ∧ opts ⊆+ candidates context.
Proof.
  apply (random_sample_spec (candidates context) 4 w), candidates_enough.
Qed.
End OptionsProperties.

(** C6 (amended).  For every text and every state of the random generator,
    [generate_options] returns exactly 4 strings taken at 4 different
    positions of the list of tokens of length > 5 of the text (a sub-multiset
    of that list, which is not deduplicated), padded with the fallback
    vocabulary when it has fewer than 4 tokens. *)
Theorem generate_options_four_positions {rt : PyRuntime} (context : str) (w : World) :
  ∃ opts, fst (generate_options context w) = Ok opts
          ∧ length opts = 4%nat
          ∧ opts ⊆+ (if len (long_words context) <? 4
                     then long_words context ++ fallback_words
                     else long_words context).
Proof.
  destruct (generate_options_run context w) as (opts & w' & Hrun & _ & Hlen & Hsub).
  exists opts. by rewrite Hrun.
Qed.

(** C6, as stated, fails: a text that repeats one long token yields the
    same string four times. *)
Lemma generate_options_repeated_token :
  fst (@generate_options ascii_runtime (py "banana banana banana banana")
         (initial_world []))
  = Ok [py "banana"; py "banana"; py "banana"; py "banana"]
  ∧ ¬ NoDup [py "banana"; py "banana"; py "banana"; py "banana"].
Proof.
  split; [by vm_compute|].
  intros Hnd. apply NoDup_cons in Hnd as [Hin _]. apply Hin. left.
Qed.

(** ** Question generation *)

Lemma split_from_head (sep : char) (s : str) :
  ∀ cur, ∃ rest, split_from sep cur s = (rev cur ++ before sep s) :: rest.
Proof.
  induction s as [|c s IH]; intros cur; simpl.
  - exists []. by rewrite app_nil_r.
  - destruct (N.eqb c sep).
    + eexists. by rewrite app_nil_r.
    + destruct (IH (c :: cur)) as [rest ->]. exists rest.
      simpl. by rewrite <- app_assoc.
Qed.

Lemma before_excludes (sep : char) (s : str) : sep ∉ before sep s.
Proof.
  induction s as [|c s IH]; simpl.
  - apply not_elem_of_nil.
  - destruct (N.eqb_spec c sep) as [->|Hne].
    + apply not_elem_of_nil.
    + apply not_elem_of_cons. split; [congruence|done].
Qed.

(** The substitution finds nothing to remove in a text without question
    mark, so the stored answer is the text before the first question mark,
    cut to 100 characters. *)
Lemma sub_final_qmark_id (s : str) : chr_question ∉ s → sub_final_qmark s = s.
Proof.
  intros Hs. unfold sub_final_qmark.
  destruct (rev s) as [|c r] eqn:E; [done|].
  assert (Hin : ∀ x, x ∈ c :: r → x ≠ chr_question).
  { intros x Hx ->. apply Hs, list_elem_of_In, in_rev. rewrite E.
    by apply list_elem_of_In. }
  destruct (N.eqb_spec c chr_question) as [Hc|_].
  { exfalso. apply (Hin c); [left|done]. }
  destruct r as [|q r']; [done|].
  destruct (N.eqb_spec q chr_question) as [Hq|_].
  { exfalso. apply (Hin q); [right; left|done]. }
  by rewrite andb_false_r.
Qed.

Lemma answer_text_before (question : str) :
  answer_text question = take 100 (before chr_question question).
Proof.
  unfold answer_text.
  rewrite sub_final_qmark_id by apply before_excludes.
  by rewrite py_prefix_take.
Qed.

Lemma py_index_run {A} (l : list A) (i : nat) (x : A) (w : World) :
  l !! i = Some x → py_index l (Z.of_nat i) w = (Ok x, w).
Proof.
  intros Hx. unfold py_index.
  assert (E : (Z.of_nat i <? 0) = false) by (apply Z.ltb_ge; lia).
  by rewrite !E, Nat2Z.id, Hx.
Qed.

Lemma py_assign_run {A} (l : list A) (i : Z) (v : A) (w : World) :
  0 ≤ i < len l → py_assign l i v w = (Ok (<[Z.to_nat i := v]> l), w).
Proof.
  intros Hi. unfold py_assign.
  assert (E : (i <? 0) = false) by (apply Z.ltb_ge; lia).
  assert (E' : (len l <=? i) = false) by (apply Z.leb_gt; lia).
  by rewrite !E, E'.
Qed.

Lemma after_calls_refl (prompt : str) (w : World) : after_calls prompt 0 w w.
Proof. repeat split. simpl. by rewrite app_nil_r. Qed.

Lemma after_calls_rng (prompt : str) (k : nat) (w1 w2 w3 : World) :
  after_calls prompt k w1 w2 → rng_only w2 w3 → after_calls prompt k w1 w3.
Proof. intros (?&?&?&?) [g ->]. repeat split; done. Qed.

Lemma after_calls_logged (prompt : str) (k : nat) (w w' : World) :
  after_calls prompt k (with_qg_calls (λ c, c ++ [prompt]) w) w' →
  after_calls prompt (S k) w w'.
Proof.
  intros (?&?&?&Hq). repeat split; try done.
  rewrite Hq. simpl. by rewrite <- app_assoc.
Qed.

Section GenerationProperties.
Context {rt : PyRuntime}.

Lemma correct_option_run (question : str) (w : World) :
  correct_option question w = (Ok (answer_text question), w).
Proof.
  unfold correct_option, str_split_on.
  destruct (split_from_head chr_question question []) as [rest ->].
  by rewrite (bind_ok _ _ _ _ _ (py_index_run (_ :: rest) 0 _ w eq_refl)).
Qed.

(** The loop of [generate_questions] fails only when the pipeline
    raises; each call it makes receives [model_prompt context]; every
    record it appends is well formed. *)
Lemma generate_loop_spec (qg : Pipeline) (context : str) (n : nat) :
  ∀ (i : nat) (questions : list Question) (w : World),
    after_calls (model_prompt context)
      (attempts qg (model_prompt context) i n) w
      (snd (generate_loop qg context i n questions w))
    ∧ match fst (generate_loop qg context i n questions w) with
      | Ok qs => ∃ new, qs = questions ++ new ∧ Forall well_formed new
                        ∧ (length new ≤ n)%nat
      | Raise e => ∃ j, qg j (model_prompt context) = Raise e
      end.
Proof.
  induction n as [|n IH]; intros i questions w; simpl.
  - split; [apply after_calls_refl|].
    exists []. rewrite app_nil_r. split; [done|]. split; [constructor|simpl; lia].
  - set (w1 := with_qg_calls (λ c, c ++ [model_prompt context]) w).
    destruct (qg i (model_prompt context)) as [[|generated_text result]|e] eqn:Eq.
    all: [> rewrite (bind_ok _ _ w _ w1) by (unfold call_pipeline; by rewrite Eq) ..
          | rewrite (bind_raise _ _ w e w1)
              by (unfold call_pipeline; by rewrite Eq) ].
    + destruct (IH (S i) questions
                  (with_qg_calls (λ c, c ++ [model_prompt context]) w))
        as [Hfr Hres].
      split; [by apply after_calls_logged|].
      destruct (fst (generate_loop _ _ _ _ _ _)); [|done].
      destruct Hres as (new & -> & Hwf & Hlen). exists new. auto with lia.
    + destruct (generate_options_run context w1)
        as (opts & w2 & Hopts & Hrng & Hlen & _).
      rewrite (bind_ok _ _ _ _ _ Hopts).
      destruct (random_randint_spec 0 3 w2) as (idx & Hidx & Hrange); [lia|].
      rewrite (bind_ok _ _ _ _ _ Hidx).
      rewrite (bind_ok _ _ _ _ _ (correct_option_run _ _)).
      rewrite (bind_ok _ _ _ _ _
                 (py_assign_run opts idx _ _ ltac:(unfold len; lia))).
      match goal with
      | |- context [generate_loop _ _ _ _ (_ ++ [?q]) ?w3] =>
          set (qn := q);
          destruct (IH (S i) (questions ++ [qn]) w3) as [Hfr Hres];
          assert (Hq : well_formed qn)
      end.
      { unfold qn. repeat split; simpl; try lia.
        - by rewrite length_insert.
        - apply list_lookup_insert_eq. lia.
        - apply py_prefix_len. lia. }
      split.
      * apply after_calls_logged. fold w1.
        destruct Hfr as (?&?&?&Hq'). destruct Hrng as [g ->].
        repeat split; done.
      * destruct (fst (generate_loop _ _ _ _ _ _)); [|done].
        destruct Hres as (new & -> & Hwf & Hlen').
        exists (qn :: new). rewrite <- app_assoc. simpl.
        split; [done|]. split; [by constructor|]. simpl. lia.
    + simpl. split; [by repeat split|eauto].
Qed.
End GenerationProperties.

Lemma attempts_le (qg : Pipeline) (prompt : str) (n : nat) :
  ∀ i, (attempts qg prompt i n ≤ n)%nat.
Proof.
  induction n as [|n IH]; intros i; simpl; [lia|].
  destruct (qg i prompt); [|lia]. specialize (IH (S i)). lia.
Qed.

Lemma attempts_all (qg : Pipeline) (prompt : str) (n : nat) :
  (∀ i, ∃ r, qg i prompt = Ok r) → ∀ i, attempts qg prompt i n = n.
Proof.
  intros Hqg. induction n as [|n IH]; intros i; simpl; [done|].
  destruct (Hqg i) as [r ->]. by rewrite IH.
Qed.

(** [generate_questions]: the loop, unless the pipeline cannot be built. *)
Lemma generate_questions_spec {rt : PyRuntime}
    (qg : Pipeline) (context : str) (num_questions : Z) (w : World) :
  after_calls (model_prompt context)
    (calls_made qg (model_prompt context) (Z.to_nat num_questions)) w
    (snd (generate_questions qg context num_questions w))
  ∧ match fst (generate_questions qg context num_questions w) with
    | Ok qs => Forall well_formed qs
    | Raise e => construction qg = Some e
                 ∨ ∃ j, qg j (model_prompt context) = Raise e
    end.
Proof.
  unfold generate_questions, calls_made.
  destruct (construction qg) as [e|].
  - split; [apply after_calls_refl|by left].
  - destruct (generate_loop_spec qg context (Z.to_nat num_questions) 0 [] w)
      as [Hfr Hres].
    split; [done|].
    destruct (fst (generate_loop _ _ _ _ _ _)); [|by right].
    by destruct Hres as (new & -> & Hwf & _).
Qed.

(** C7 (amended).  [generate_questions] fails only when building or calling
    the model raises.  Every record it returns has exactly 4 options, a
    [correct_idx] in [0,3], and at that index the cleaned form of the
    generated question (text before the first '?', a final '?' removed) cut
    to at most 100 characters.  The question text is cut to at most 300
    characters in the arguments [send_question_batch] prepares for the
    poll; the stored text is not bounded. *)
Theorem generate_questions_well_formed {rt : PyRuntime}
    (qg : Pipeline) (context : str) (num_questions : Z) (w : World) :
  match fst (generate_questions qg context num_questions w) with
  | Ok qs =>
      Forall (λ q,
          length (options q) = 4%nat
          ∧ 0 ≤ correct_idx q ≤ 3
          ∧ options q !! Z.to_nat (correct_idx q)
            = Some (py_prefix (sub_final_qmark (before chr_question (question q))) 100)
          ∧ len (py_prefix (sub_final_qmark (before chr_question (question q))) 100) ≤ 100
          ∧ ∀ u, ∃ p, poll_of u q = SendPoll u p (options q) (Some (correct_idx q))
                      ∧ kw_question (poll_kwargs q) = Some p
                      ∧ p = py_prefix (question q) 300 ∧ len p ≤ 300) qs
  | Raise e => construction qg = Some e
               ∨ ∃ j, qg j (model_prompt context) = Raise e
  end.
Proof.
  destruct (generate_questions_spec qg context num_questions w) as [_ Hres].
  destruct (fst (generate_questions _ _ _ _)); [|done].
  eapply Forall_impl; [exact Hres|].
  intros q (Hlen & Hidx & Hans & Hcut). repeat split; try done; try lia.
  intros u. eexists. split; [done|]. split; [done|]. split; [done|].
  apply py_prefix_len. lia.
Qed.

(** C7, as stated, fails: the record keeps the whole generated text, here a
    question of 301 characters. *)
Lemma generate_questions_long_prompt :
  ∃ q, fst (@generate_questions ascii_runtime
              (answering [replicate 301 97%N]) (py "x") 1 (initial_world []))
       = Ok [q]
       ∧ len (question q) = 301 ∧ ¬ (len (question q) ≤ 300).
Proof.
  eexists. split; [by vm_compute|]. split; [by vm_compute|].
  vm_compute. intros Hle. by apply Hle.
Qed.

(** C10.  Each call of the model made by [generate_questions] receives the
    same prompt, built from the first 300 whitespace-separated words of the
    text; there are [n] calls unless the pipeline cannot be built or a call
    raises.  Two texts that agree on their first 300 words give the same
    prompts on every attempt. *)
Theorem generate_questions_same_prompt {rt : PyRuntime}
    (qg : Pipeline) (text1 text2 : str) (n : Z) (w1 w2 : World) :
  take 300 (str_split text1) = take 300 (str_split text2) →
  let prompt :=
    py "generate question: " ++ str_join [chr_space] (take 300 (str_split text1)) in
  let k := calls_made qg prompt (Z.to_nat n) in
  qg_calls (snd (generate_questions qg text1 n w1)) = qg_calls w1 ++ replicate k prompt
  ∧ qg_calls (snd (generate_questions qg text2 n w2)) = qg_calls w2 ++ replicate k prompt
  ∧ (k ≤ Z.to_nat n)%nat
  ∧ (construction qg = None → (∀ i, ∃ r, qg i prompt = Ok r) → k = Z.to_nat n).
Proof.
  intros Hsame prompt k.
  assert (Hp1 : model_prompt text1 = prompt) by done.
  assert (Hp2 : model_prompt text2 = prompt)
    by (unfold model_prompt, prompt; by rewrite Hsame).
  destruct (generate_questions_spec qg text1 n w1) as [(_&_&_&Hc1) _].
  destruct (generate_questions_spec qg text2 n w2) as [(_&_&_&Hc2) _].
  rewrite Hp1 in Hc1. rewrite Hp2 in Hc2.
  split; [done|]. split; [done|]. unfold k, calls_made.
  split.
  - destruct (construction qg); [lia|apply attempts_le].
  - intros -> Hall. by apply attempts_all.
Qed.

(** Two texts of 301 words that differ in the last word only: the three
    calls of the model receive the same prompts. *)
Lemma generate_questions_same_prompt_witness :
  let text1 := str_join [chr_space] (replicate 300 (py "w") ++ [py "elephants"]) in
  let text2 := str_join [chr_space] (replicate 300 (py "w") ++ [py "giraffes"]) in
  let qg : Pipeline := answering [py "What is w?"] in
  let calls1 := qg_calls (snd (@generate_questions ascii_runtime qg text1 3 (initial_world []))) in
  let calls2 := qg_calls (snd (@generate_questions ascii_runtime qg text2 3 (initial_world [1%nat]))) in
  text1 ≠ text2
  ∧ @candidates ascii_runtime text1 = py "elephants" :: fallback_words
  ∧ @candidates ascii_runtime text2 = py "giraffes" :: fallback_words
  ∧ take 300 (@str_split ascii_runtime text1) = take 300 (@str_split ascii_runtime text2)
  ∧ length calls1 = 3%nat
  ∧ calls1 = calls2.
Proof.
  intros text1 text2 qg calls1 calls2.
  assert (Hsame : take 300 (@str_split ascii_runtime text1)
                  = take 300 (@str_split ascii_runtime text2)) by by vm_compute.
  split; [by vm_compute|]. split; [by vm_compute|]. split; [by vm_compute|].
  split; [exact Hsame|].
  destruct (@generate_questions_same_prompt ascii_runtime qg text1 text2 3
              (initial_world []) (initial_world [1%nat]) Hsame)
    as (H1 & H2 & _ & Hall).
  unfold calls1, calls2. rewrite H1, H2. split; [|reflexivity].
  rewrite Hall by (done || (intros i; by eexists)). reflexivity.
Defined.

(** ** Handlers that do not touch the usage dict *)

Lemma keeps_stats_ret {A} (a : A) : keeps_stats (mret a).
Proof. done. Qed.

Lemma keeps_stats_raise {A} (e : exn) : keeps_stats (@raise A e).
Proof. done. Qed.

Lemma keeps_stats_bind {A B} (m : Bot A) (f : A → Bot B) :
  keeps_stats m → (∀ a, keeps_stats (f a)) → keeps_stats (m ≫= f).
Proof.
  intros Hm Hf w. unfold mbind, Bot_bind.
  specialize (Hm w). destruct (m w) as [[a|e] w']; simpl in *.
  - by rewrite Hf.
  - done.
Qed.

Lemma keeps_stats_try {A} (m : Bot A) (h : exn → Bot A) :
  keeps_stats m → (∀ e, keeps_stats (h e)) → keeps_stats (try_except m h).
Proof.
  intros Hm Hh w. unfold try_except.
  specialize (Hm w). destruct (m w) as [[a|e] w']; simpl in *.
  - done.
  - by rewrite Hh.
Qed.

Lemma keeps_stats_send (a : Action) : keeps_stats (send a).
Proof. done. Qed.

Lemma keeps_stats_get_data (u : Z) : keeps_stats (get_data u).
Proof. done. Qed.

Lemma keeps_stats_update_data (u : Z) (f : UserData → UserData) :
  keeps_stats (update_data u f).
Proof. done. Qed.

Lemma keeps_stats_get_stats : keeps_stats get_stats.
Proof. done. Qed.

Lemma keeps_stats_randbelow (n : nat) : keeps_stats (randbelow n).
Proof. done. Qed.

Lemma keeps_stats_call_pipeline (qg : Pipeline) (i : nat) (prompt : str) :
  keeps_stats (call_pipeline qg i prompt).
Proof. done. Qed.

Lemma keeps_stats_from_external {A} (r : option A) : keeps_stats (from_external r).
Proof. by destruct r. Qed.

Lemma keeps_stats_py_index {A} (l : list A) (i : Z) : keeps_stats (py_index l i).
Proof.
  intros w. unfold py_index.
  destruct (_ <? 0); [done|]. by destruct (l !! _).
Qed.

Lemma keeps_stats_py_assign {A} (l : list A) (i : Z) (v : A) :
  keeps_stats (py_assign l i v).
Proof. intros w. unfold py_assign. by destruct (_ || _). Qed.

Create HintDb frame discriminated.

#[export] Hint Resolve keeps_stats_ret keeps_stats_raise keeps_stats_send
  keeps_stats_get_data keeps_stats_update_data keeps_stats_get_stats
  keeps_stats_randbelow keeps_stats_call_pipeline keeps_stats_from_external
  keeps_stats_py_index keeps_stats_py_assign : frame.

(** Walks through the binds and case distinctions of a handler. *)
Ltac frame :=
  repeat first
    [ progress auto with frame
    | apply keeps_stats_bind; [|intros ?]
    | apply keeps_stats_try; [|intros ?]
    | match goal with
      | |- keeps_stats (match ?x with _ => _ end) => destruct x
      | |- keeps_stats (let (_, _) := ?x in _) => destruct x
      end ].

Lemma keeps_stats_read_key {A} (u : Z) (key : string) (field : UserData → option A) :
  keeps_stats (read_key u key field).
Proof. unfold read_key. frame. Qed.

#[export] Hint Resolve keeps_stats_read_key : frame.

Lemma keeps_stats_sample_loop {A} (k : nat) :
  ∀ (n : nat) (pool : list A), keeps_stats (sample_loop k n pool).
Proof. induction k as [|k IH]; intros n pool; simpl; frame. Qed.

Lemma keeps_stats_random_sample {A} (population : list A) (k : nat) :
  keeps_stats (random_sample population k).
Proof. unfold random_sample. frame. apply keeps_stats_sample_loop. Qed.

Lemma keeps_stats_random_randint (a b : Z) : keeps_stats (random_randint a b).
Proof. unfold random_randint. frame. Qed.

Lemma keeps_stats_Poll_init (kw : PollArgs) : keeps_stats (Poll_init kw).
Proof. unfold Poll_init. frame. Qed.

#[export] Hint Resolve keeps_stats_Poll_init : frame.

Lemma keeps_stats_send_polls (u : Z) (batch : list Question) :
  keeps_stats (send_polls u batch).
Proof. induction batch as [|q batch IH]; simpl; unfold send_poll; frame. Qed.

Lemma keeps_stats_count_correct (u : Z) (answers : list Answer) :
  keeps_stats (count_correct u answers).
Proof. induction answers as [|a answers IH]; simpl; frame. Qed.

#[export] Hint Resolve keeps_stats_random_sample keeps_stats_random_randint
  keeps_stats_send_polls keeps_stats_count_correct : frame.

Lemma keeps_stats_show_results (u : Z) : keeps_stats (show_results u).
Proof. unfold show_results. frame. Qed.

#[export] Hint Resolve keeps_stats_show_results : frame.

Lemma keeps_stats_send_question_batch (u : Z) : keeps_stats (send_question_batch u).
Proof. unfold send_question_batch, send_batch_and_advance. frame. Qed.

#[export] Hint Resolve keeps_stats_send_question_batch : frame.

Lemma keeps_stats_next_batch (u : Z) : keeps_stats (next_batch u).
Proof. unfold next_batch. frame. Qed.

Lemma keeps_stats_handle_poll_answer (u : Z) (ids : list Z) :
  keeps_stats (handle_poll_answer u ids).
Proof. unfold handle_poll_answer. frame. Qed.

Section FrameProperties.
Context {rt : PyRuntime}.

Lemma keeps_stats_generate_options (context : str) :
  keeps_stats (generate_options context).
Proof. unfold generate_options. frame. Qed.

Lemma keeps_stats_correct_option (question : str) :
  keeps_stats (correct_option question).
Proof. unfold correct_option. frame. Qed.

Hint Resolve keeps_stats_generate_options keeps_stats_correct_option : frame.

Lemma keeps_stats_generate_loop (qg : Pipeline) (context : str) (n : nat) :
  ∀ i questions, keeps_stats (generate_loop qg context i n questions).
Proof. induction n as [|n IH]; intros i questions; simpl; frame. Qed.

Lemma keeps_stats_handle_question_count (u : Z) (qg : Pipeline) (text : str) :
  keeps_stats (handle_question_count u qg text).
Proof.
  unfold handle_question_count, count_session, generate_questions. frame.
  apply keeps_stats_generate_loop.
Qed.

Lemma keeps_stats_process_document (u : Z) (doc : Document) (file_type : str) :
  keeps_stats (process_document u doc file_type).
Proof. unfold process_document, extract_text_from_file. frame. Qed.
End FrameProperties.

(** ** The usage dict *)

Lemma reset_user_stats_other (u v : Z) (t_new now : Z) (stats : gmap Z Stats) :
  v ≠ u → reset_user_stats u t_new now stats !! v = stats !! v.
Proof.
  intros Hne. unfold reset_user_stats.
  destruct (stats !! u) as [s|] eqn:E.
  - rewrite E. destruct (_ <? _); [|done]. by rewrite lookup_insert_ne.
  - rewrite lookup_insert_eq. simpl.
    destruct (_ <? _); by rewrite ?lookup_insert_ne by done.
Qed.

(** What [reset_user_stats] leaves in the record of its user: the upload
    counter and the time of the last upload are the old ones (0 and [None]
    for a new record). *)
Lemma reset_user_stats_self (u : Z) (t_new now : Z) (stats : gmap Z Stats) :
  ∃ s, reset_user_stats u t_new now stats !! u = Some s
       ∧ file_count s = uploads_of u stats
       ∧ last_upload s = last_upload_of u stats
       ∧ (daily_count s = 0 ∨ daily_count s = daily_of u stats).
Proof.
  unfold reset_user_stats, uploads_of, last_upload_of, daily_of.
  destruct (stats !! u) as [s|] eqn:E; simpl.
  - rewrite E. destruct (_ <? _).
    + rewrite lookup_insert_eq. eexists. split; [done|]. simpl. auto.
    + rewrite E. eexists. split; [done|]. auto.
  - rewrite lookup_insert_eq. simpl. destruct (_ <? _).
    + rewrite lookup_insert_eq. eexists. split; [done|]. simpl. auto.
    + rewrite lookup_insert_eq. eexists. split; [done|]. simpl. auto.
Qed.

Lemma reset_user_stats_counters (u v : Z) (t_new now : Z) (stats : gmap Z Stats) :
  uploads_of v (reset_user_stats u t_new now stats) = uploads_of v stats
  ∧ last_upload_of v (reset_user_stats u t_new now stats) = last_upload_of v stats.
Proof.
  destruct (decide (v = u)) as [->|Hne].
  - destruct (reset_user_stats_self u t_new now stats) as (s & Hs & Hc & Hl & _).
    unfold uploads_of at 1, last_upload_of at 1. rewrite Hs. simpl. done.
  - unfold uploads_of, last_upload_of. by rewrite reset_user_stats_other.
Qed.

Lemma reset_user_stats_daily (u v : Z) (t_new now : Z) (stats : gmap Z Stats) :
  daily_of v stats = 0 → daily_of v (reset_user_stats u t_new now stats) = 0.
Proof.
  intros Hd. destruct (decide (v = u)) as [->|Hne].
  - destruct (reset_user_stats_self u t_new now stats) as (s & Hs & _ & _ & Hz).
    unfold daily_of at 1. rewrite Hs. simpl. lia.
  - unfold daily_of in *. by rewrite reset_user_stats_other.
Qed.

Lemma reset_user_stats_keeps_record (u v : Z) (t_new now : Z) (stats : gmap Z Stats) :
  is_Some (stats !! v) → is_Some (reset_user_stats u t_new now stats !! v).
Proof.
  intros Hv. destruct (decide (v = u)) as [->|Hne].
  - destruct (reset_user_stats_self u t_new now stats) as (s & -> & _). eauto.
  - by rewrite reset_user_stats_other.
Qed.

Lemma charge_self (u : Z) (now : Z) (stats : gmap Z Stats) :
  is_Some (stats !! u) →
  uploads_of u (charge u now stats) = uploads_of u stats + 1
  ∧ last_upload_of u (charge u now stats) = Some now
  ∧ daily_of u (charge u now stats) = daily_of u stats.
Proof.
  intros [s Hs]. unfold charge, uploads_of, last_upload_of, daily_of.
  rewrite Hs, lookup_insert_eq. done.
Qed.

Lemma charge_other (u v : Z) (now : Z) (stats : gmap Z Stats) :
  v ≠ u → charge u now stats !! v = stats !! v.
Proof.
  intros Hne. unfold charge. destruct (stats !! u); [|done].
  by rewrite lookup_insert_ne.
Qed.

Lemma charge_keeps_record (u v : Z) (now : Z) (stats : gmap Z Stats) :
  is_Some (stats !! v) → is_Some (charge u now stats !! v).
Proof.
  intros Hv. unfold charge. destruct (stats !! u) eqn:E; [|done].
  destruct (decide (v = u)) as [->|Hne].
  - rewrite lookup_insert_eq. eauto.
  - by rewrite lookup_insert_ne.
Qed.

Lemma start_stats (u : Z) (t_new now : Z) (w : World) :
  user_stats (snd (start u t_new now w))
  = reset_user_stats u t_new now (user_stats w).
Proof. done. Qed.

Section DocumentProperties.
Context {rt : PyRuntime}.

(** The usage dict after [handle_document]: the record of the user is
    created or reset, and charged exactly when the upload passes the
    quota gate and the file-type check, whatever the extraction does. *)
Lemma handle_document_stats (u : Z) (doc : Document) (clk : DocClock) (w : World) :
  user_stats (snd (handle_document u doc clk w))
  = (if admitted u doc clk w then charge u (t_upload clk) else id)
      (reset_user_stats u (t_created clk) (t_reset clk) (user_stats w)).
Proof.
  unfold handle_document, admitted.
  set (m := reset_user_stats u (t_created clk) (t_reset clk) (user_stats w)).
  set (w1 := with_user_stats (reset_user_stats u (t_created clk) (t_reset clk)) w).
  assert (E1 : update_stats (reset_user_stats u (t_created clk) (t_reset clk)) w
               = (Ok (), w1)) by done.
  rewrite (bind_ok _ _ _ _ _ E1).
  assert (E2 : get_stats w1 = (Ok m, w1)) by done.
  rewrite (bind_ok _ _ _ _ _ E2).
  destruct (check_limits u (t_check clk) m); simpl; [|done].
  destruct (file_name doc) as [name|]; [|done].
  destruct (bool_decide _); simpl; [|done].
  rewrite (bind_ok _ _ _ _ _ E2).
  unfold charge.
  destruct (reset_user_stats_self u (t_created clk) (t_reset clk) (user_stats w))
    as (s & Hs & _).
  fold m in Hs. rewrite Hs.
  set (w2 := with_user_stats (<[u := record_upload (t_upload clk) s]>) w1).
  assert (E3 : update_stats (<[u := record_upload (t_upload clk) s]>) w1
               = (Ok (), w2)) by done.
  rewrite (bind_ok _ _ _ _ _ E3).
  match goal with
  | |- user_stats (snd ((_ ≫= ?k) w2)) = _ =>
      assert (Hk : keeps_stats (k ()))
  end.
  { pose proof keeps_stats_process_document. frame. }
  assert (E4 : send (ReplyText u TxtDownloading) w2
               = (Ok (), with_outbox (λ o, o ++ [ReplyText u TxtDownloading]) w2))
    by done.
  rewrite (bind_ok _ _ _ _ _ E4). by rewrite Hk.
Qed.
End DocumentProperties.

(** ** Runs of the dispatcher *)

Section RunProperties.
Context {rt : PyRuntime}.

(** The effect of one event on the counters of user [u]. *)
Lemma step_counters (u : Z) (e : Event) (w : World) :
  uploads_of u (user_stats (step w e))
  = uploads_of u (user_stats w) + len (admitted_upload u e w)
  ∧ last_upload_of u (user_stats (step w e))
    = from_option Some (last_upload_of u (user_stats w))
        (last (admitted_upload u e w))
  ∧ (daily_of u (user_stats w) = 0 → daily_of u (user_stats (step w e)) = 0)
  ∧ (is_Some (user_stats w !! u) → is_Some (user_stats (step w e) !! u)).
Proof.
  assert (Hkeep : ∀ m : Bot unit, keeps_stats m →
            uploads_of u (user_stats (snd (m w))) = uploads_of u (user_stats w) + 0
            ∧ last_upload_of u (user_stats (snd (m w))) = last_upload_of u (user_stats w)
            ∧ (daily_of u (user_stats w) = 0 → daily_of u (user_stats (snd (m w))) = 0)
            ∧ (is_Some (user_stats w !! u) → is_Some (user_stats (snd (m w)) !! u))).
  { intros m Hm. rewrite Hm. rewrite Z.add_0_r. done. }
  destruct e as [v t_new now|v doc clk|v qg text|v|v ids];
    unfold step, admitted_upload; cbn [handle].
  - rewrite start_stats.
    destruct (reset_user_stats_counters v u t_new now (user_stats w)) as [-> ->].
    split; [symmetry; apply Z.add_0_r|]. split; [done|].
    split; [apply reset_user_stats_daily|apply reset_user_stats_keeps_record].
  - rewrite handle_document_stats.
    set (m := reset_user_stats v (t_created clk) (t_reset clk) (user_stats w)).
    destruct (reset_user_stats_counters v u (t_created clk) (t_reset clk) (user_stats w))
      as [Hc Hl]. fold m in Hc, Hl.
    assert (Hd : daily_of u (user_stats w) = 0 → daily_of u m = 0)
      by apply reset_user_stats_daily.
    assert (Hr : is_Some (user_stats w !! u) → is_Some (m !! u))
      by apply reset_user_stats_keeps_record.
    destruct (admitted v doc clk w); simpl.
    + destruct (decide (v = u)) as [->|Hne].
      * rewrite bool_decide_eq_true_2 by done. simpl.
        destruct (reset_user_stats_self u (t_created clk) (t_reset clk) (user_stats w))
          as (s & Hs & _). fold m in Hs.
        destruct (charge_self u (t_upload clk) m) as (-> & -> & ->); [eauto|].
        rewrite Hc. repeat split; auto using charge_keeps_record.
      * rewrite bool_decide_eq_false_2 by done. simpl.
        unfold uploads_of, last_upload_of, daily_of in *.
        rewrite !charge_other by done. rewrite Hc, Hl, Z.add_0_r.
        repeat split; auto.
    + rewrite andb_false_r. simpl. rewrite Hc, Hl, Z.add_0_r.
      repeat split; auto.
  - apply Hkeep, keeps_stats_handle_question_count.
  - apply Hkeep, keeps_stats_next_batch.
  - apply Hkeep, keeps_stats_handle_poll_answer.
Qed.

(** The counters of user [u] after a run. *)
Lemma run_counters (u : Z) (evs : list Event) :
  ∀ w,
    uploads_of u (user_stats (run evs w))
    = uploads_of u (user_stats w) + len (admitted_uploads u evs w)
    ∧ last_upload_of u (user_stats (run evs w))
      = from_option Some (last_upload_of u (user_stats w))
          (last (admitted_uploads u evs w))
    ∧ (daily_of u (user_stats w) = 0 → daily_of u (user_stats (run evs w)) = 0).
Proof.
  induction evs as [|e evs IH]; intros w; simpl.
  - rewrite Z.add_0_r. done.
  - destruct (IH (step w e)) as (Hc & Hl & Hd).
    destruct (step_counters u e w) as (Hc1 & Hl1 & Hd1 & _).
    fold (run evs (step w e)).
    rewrite Hc, Hl, Hc1, Hl1. unfold len. rewrite length_app, last_app.
    split; [lia|]. split; [|auto].
    by destruct (last (admitted_uploads u evs (step w e))).
Qed.

(** No handler ever charges the daily counter. *)
Lemma daily_count_stays_zero (u : Z) (evs : list Event) (seed : list nat) :
  daily_of u (user_stats (run evs (initial_world seed))) = 0.
Proof. by apply run_counters. Qed.

(** The hourly test of [check_limits]. *)
Lemma check_limits_hourly (u : Z) (now t : Z) (stats : gmap Z Stats) :
  MAX_FILES_PER_HOUR ≤ uploads_of u stats →
  last_upload_of u stats = Some t →
  now - t < timedelta_hours 1 →
  check_limits u now stats = false.
Proof.
  unfold uploads_of, last_upload_of, check_limits.
  destruct (stats !! u) as [s|]; simpl; [|done].
  intros Hc -> Ht.
  rewrite (proj2 (Z.ltb_lt _ _) Ht), (proj2 (Z.leb_le _ _) Hc). done.
Qed.
End RunProperties.

(** ** Quotas *)

(** C5 (amended).  The counters [file_count] and [last_upload] of a user are
    charged by [handle_document] exactly when the upload passes the quota
    gate and the file-type check, before the extraction and whatever its
    outcome; an upload refused by the gate or for its type (or without a
    file name) leaves them unchanged, and the records of other users are
    never touched. *)
Theorem handle_document_charges_on_admission {rt : PyRuntime}
    (u : Z) (name : option str) (pdf : option str) (slides : option (list str))
    (clk : DocClock) (w : World) :
  let doc := {| file_name := name; pdf_text := pdf; slide_shape_texts := slides |} in
  let pass :=
    check_limits u (t_check clk)
      (reset_user_stats u (t_created clk) (t_reset clk) (user_stats w))
    && match name with
       | Some name => bool_decide (file_type_of name ∈ supported_types)
       | None => false
       end in
  let stats' := user_stats (snd (handle_document u doc clk w)) in
  uploads_of u stats' = uploads_of u (user_stats w) + (if pass then 1 else 0)
  ∧ last_upload_of u stats'
    = (if pass then Some (t_upload clk) else last_upload_of u (user_stats w))
  ∧ ∀ v, v ≠ u → stats' !! v = user_stats w !! v.
Proof.
  intros doc pass stats'.
  destruct (step_counters u (EvDocument u doc clk) w) as (Hc & Hl & _).
  unfold step in Hc, Hl. cbn [handle admitted_upload] in Hc, Hl.
  rewrite bool_decide_eq_true_2 in Hc, Hl by done. simpl andb in Hc, Hl.
  fold stats' in Hc, Hl. change (admitted u doc clk w) with pass in Hc, Hl.
  split; [|split].
  - rewrite Hc. by destruct pass.
  - rewrite Hl. by destruct pass.
  - intros v Hne. unfold stats'. rewrite handle_document_stats.
    change (admitted u doc clk w) with pass.
    destruct pass; simpl; rewrite ?charge_other by done;
      by apply reset_user_stats_other.
Qed.

(** C5, as stated, fails: an admitted upload whose extraction raises, or
    yields no text, is charged all the same. *)
Lemma handle_document_charges_failed_extraction :
  let failing := {| file_name := Some (py "notes.pdf"); pdf_text := None;
                    slide_shape_texts := None |} in
  let empty := {| file_name := Some (py "notes.pdf"); pdf_text := Some [];
                  slide_shape_texts := None |} in
  let w1 := snd (@handle_document ascii_runtime 1 failing (at_time 8) (initial_world [])) in
  let w2 := snd (@handle_document ascii_runtime 1 empty (at_time 8) (initial_world [])) in
  last (outbox w1) = Some (EditMessageText 1 TxtProcessingFailed)
  ∧ last (outbox w2) = Some (EditMessageText 1 TxtProcessingFailed)
  ∧ uploads_of 1 (user_stats (initial_world [])) = 0
  ∧ uploads_of 1 (user_stats w1) = 1 ∧ last_upload_of 1 (user_stats w1) = Some 8
  ∧ uploads_of 1 (user_stats w2) = 1 ∧ last_upload_of 1 (user_stats w2) = Some 8.
Proof. by vm_compute. Qed.

(** C8.  Along every run from the start of the process, once at least
    [MAX_FILES_PER_HOUR] uploads of a user have been admitted, an upload of
    that user whose quota check happens less than one hour after the last
    admitted upload is refused: [check_limits] returns [False], whatever the
    other events of the run. *)
Theorem hourly_cap_refuses_exceeding_upload {rt : PyRuntime}
    (seed : list nat) (evs : list Event) (u : Z) (doc : Document)
    (clk : DocClock) (t_last : Z) :
  let w := run evs (initial_world seed) in
  MAX_FILES_PER_HOUR ≤ len (admitted_uploads u evs (initial_world seed)) →
  last (admitted_uploads u evs (initial_world seed)) = Some t_last →
  t_check clk - t_last < timedelta_hours 1 →
  check_limits u (t_check clk)
    (reset_user_stats u (t_created clk) (t_reset clk) (user_stats w)) = false
  ∧ admitted_upload u (EvDocument u doc clk) w = []
  ∧ last (outbox (snd (handle_document u doc clk w)))
    = Some (ReplyText u TxtLimitExceeded).
Proof.
  intros w Hmax Hlast Ht.
  destruct (run_counters u evs (initial_world seed)) as (Hc & Hl & _).
  fold w in Hc, Hl. rewrite Hlast in Hl. simpl in Hl.
  change (uploads_of u (user_stats (initial_world seed))) with 0 in Hc.
  destruct (reset_user_stats_counters u u (t_created clk) (t_reset clk) (user_stats w))
    as [Hc' Hl'].
  assert (Hdeny : check_limits u (t_check clk)
            (reset_user_stats u (t_created clk) (t_reset clk) (user_stats w)) = false).
  { apply (check_limits_hourly u _ t_last); [lia|congruence|done]. }
  split; [done|]. split.
  - unfold admitted_upload, admitted. by rewrite Hdeny, andb_false_r.
  - unfold handle_document.
    set (w1 := with_user_stats (reset_user_stats u (t_created clk) (t_reset clk)) w).
    assert (E1 : update_stats (reset_user_stats u (t_created clk) (t_reset clk)) w
                 = (Ok (), w1)) by done.
    rewrite (bind_ok _ _ _ _ _ E1).
    assert (E2 : get_stats w1 = (Ok (user_stats w1), w1)) by done.
    rewrite (bind_ok _ _ _ _ _ E2).
    change (user_stats w1)
      with (reset_user_stats u (t_created clk) (t_reset clk) (user_stats w)).
    rewrite Hdeny. simpl. apply last_snoc.
Qed.

(** Two uploads ten minutes apart, and a third one ten minutes later. *)
Lemma hourly_cap_refuses_exceeding_upload_witness :
  let minute := 60 * 1000000 in
  let evs := [EvDocument 1 sample_pdf (at_time 0);
              EvDocument 1 sample_pdf (at_time (10 * minute))] in
  admitted_uploads (rt := ascii_runtime) 1 evs (initial_world []) = [0; 10 * minute]
  ∧ check_limits 1 (20 * minute)
      (reset_user_stats 1 (20 * minute) (20 * minute)
         (user_stats (run (rt := ascii_runtime) evs (initial_world [])))) = false.
Proof.
  intros minute evs. split; [by vm_compute|].
  apply (hourly_cap_refuses_exceeding_upload (rt := ascii_runtime) [] evs 1 sample_pdf
           (at_time (20 * minute)) (10 * minute)); by vm_compute.
Defined.

(** C9.  No event makes [file_count] smaller or removes a record, and
    [reset_user_stats] leaves it alone; after every run from the start of
    the process it is the number of uploads of the user admitted so far and
    [last_upload] is the time of the latest one.  Hence once that number
    has reached [MAX_FILES_PER_HOUR], [check_limits] refuses whenever the
    latest admitted upload is less than one hour old, however the earlier
    uploads are spread in time. *)
Theorem file_count_is_lifetime_total {rt : PyRuntime}
    (seed : list nat) (evs : list Event) (e : Event) (u : Z) :
  let w0 := initial_world seed in
  let w := run evs w0 in
  uploads_of u (user_stats w) ≤ uploads_of u (user_stats (step w e))
  ∧ (is_Some (user_stats w !! u) → is_Some (user_stats (step w e) !! u))
  ∧ (∀ v t_new now,
       uploads_of u (reset_user_stats v t_new now (user_stats w))
       = uploads_of u (user_stats w))
  ∧ uploads_of u (user_stats w) = len (admitted_uploads u evs w0)
  ∧ last_upload_of u (user_stats w) = last (admitted_uploads u evs w0)
  ∧ (∀ doc clk t_last,
       MAX_FILES_PER_HOUR ≤ len (admitted_uploads u evs w0) →
       last (admitted_uploads u evs w0) = Some t_last →
       t_check clk - t_last < timedelta_hours 1 →
       check_limits u (t_check clk) (user_stats w) = false
       ∧ admitted u doc clk w = false).
Proof.
  intros w0 w.
  destruct (step_counters u e w) as (Hc1 & _ & _ & Hr1).
  destruct (run_counters u evs w0) as (Hc & Hl & _). fold w in Hc, Hl.
  change (uploads_of u (user_stats w0)) with 0 in Hc.
  change (last_upload_of u (user_stats w0)) with (@None Z) in Hl.
  assert (Hl' : last_upload_of u (user_stats w) = last (admitted_uploads u evs w0)).
  { rewrite Hl. by destruct (last _). }
  split; [|split; [done|split; [|split; [lia|split; [done|]]]]].
  - rewrite Hc1. pose proof (len_nonneg (admitted_upload u e w)). lia.
  - intros v t_new now. apply reset_user_stats_counters.
  - intros doc clk t_last Hmax Hlast Ht.
    destruct (reset_user_stats_counters u u (t_created clk) (t_reset clk) (user_stats w))
      as [Hc' Hl''].
    split.
    + apply (check_limits_hourly u _ t_last); [lia|congruence|done].
    + unfold admitted.
      rewrite (check_limits_hourly u _ t_last); [done|lia|congruence|done].
Qed.

(** Uploads at 0h and at 10h, then a check at 10h30: one upload in the
    trailing hour, two in total, and the check refuses. *)
Lemma file_count_is_lifetime_total_witness :
  let hour := timedelta_hours 1 in
  let evs := [EvDocument 1 sample_pdf (at_time 0);
              EvDocument 1 sample_pdf (at_time (10 * hour))] in
  admitted_uploads (rt := ascii_runtime) 1 evs (initial_world []) = [0; 10 * hour]
  ∧ admitted (rt := ascii_runtime) 1 sample_pdf (at_time (10 * hour + hour / 2))
      (run (rt := ascii_runtime) evs (initial_world [])) = false.
Proof.
  intros hour evs. split; [by vm_compute|].
  destruct (file_count_is_lifetime_total (rt := ascii_runtime) [] evs
              (EvStart 1 0 0) 1) as (_ & _ & _ & _ & _ & Hdeny).
  apply (Hdeny sample_pdf (at_time (10 * hour + hour / 2)) (10 * hour));
    by vm_compute.
Defined.

(** C3: the program never adds to [daily_count].  Five uploads of one user
    two hours apart are all admitted, the daily counter is still 0, and a
    sixth upload two hours later passes [check_limits]. *)
Theorem daily_cap_not_enforced :
  let hour := timedelta_hours 1 in
  let evs := [EvDocument 1 sample_pdf (at_time 0);
              EvDocument 1 sample_pdf (at_time (2 * hour));
              EvDocument 1 sample_pdf (at_time (4 * hour));
              EvDocument 1 sample_pdf (at_time (6 * hour));
              EvDocument 1 sample_pdf (at_time (8 * hour))] in
  let w := run (rt := ascii_runtime) evs (initial_world []) in
  admitted_uploads (rt := ascii_runtime) 1 evs (initial_world [])
  = [0; 2 * hour; 4 * hour; 6 * hour; 8 * hour]
  ∧ len (admitted_uploads (rt := ascii_runtime) 1 evs (initial_world []))
    = MAX_FILES_PER_DAY
  ∧ uploads_of 1 (user_stats w) = 5
  ∧ daily_of 1 (user_stats w) = 0
  ∧ check_limits 1 (10 * hour)
      (reset_user_stats 1 (10 * hour) (10 * hour) (user_stats w)) = true
  ∧ admitted_upload (rt := ascii_runtime) 1
      (EvDocument 1 sample_pdf (at_time (10 * hour))) w = [10 * hour].
Proof. by vm_compute. Qed.

(** ** Sessions *)

Lemma read_key_some {A} (u : Z) (key : string) (field : UserData → option A)
    (v : A) (w : World) :
  field (data_of u w) = Some v → read_key u key field w = (Ok v, w).
Proof.
  intros Hv. unfold read_key.
  assert (E : get_data u w = (Ok (data_of u w), w)) by done.
  by rewrite (bind_ok _ _ _ _ _ E), Hv.
Qed.

Lemma read_key_none {A} (u : Z) (key : string) (field : UserData → option A)
    (w : World) :
  field (data_of u w) = None → @read_key A u key field w = (Raise (KeyError key), w).
Proof.
  intros Hv. unfold read_key.
  assert (E : get_data u w = (Ok (data_of u w), w)) by done.
  by rewrite (bind_ok _ _ _ _ _ E), Hv.
Qed.

(** C4: with no session stored, [next_batch] answers the callback, deletes
    the message and then fails with [KeyError]; nothing else is sent. *)
Theorem next_batch_without_session (u : Z) (w : World) :
  current_questions (data_of u w) = None →
  fst (next_batch u w) = Raise (KeyError "current_questions")
  ∧ outbox (snd (next_batch u w)) = outbox w ++ [AnswerCallback u; DeleteMessage u]
  ∧ user_data (snd (next_batch u w)) = user_data w.
Proof.
  intros Hq. unfold next_batch.
  set (w1 := with_outbox (λ o, o ++ [AnswerCallback u]) w).
  set (w2 := with_outbox (λ o, o ++ [DeleteMessage u]) w1).
  assert (E1 : send (AnswerCallback u) w = (Ok (), w1)) by done.
  assert (E2 : send (DeleteMessage u) w1 = (Ok (), w2)) by done.
  rewrite (bind_ok _ _ _ _ _ E1), (bind_ok _ _ _ _ _ E2).
  assert (E3 : send_question_batch u w2 = (Raise (KeyError "current_questions"), w2)).
  { unfold send_question_batch, send_batch_and_advance.
    erewrite bind_raise; [done|]. erewrite bind_raise; [done|].
    by apply read_key_none. }
  rewrite E3. simpl. rewrite <- app_assoc. done.
Qed.

Lemma next_batch_without_session_witness :
  fst (next_batch 7 (initial_world [])) = Raise (KeyError "current_questions")
  ∧ outbox (snd (next_batch 7 (initial_world [])))
    = [AnswerCallback 7; DeleteMessage 7].
Proof.
  destruct (next_batch_without_session 7 (initial_world [])) as (Hr & Ho & _);
    [reflexivity|].
  split; [exact Hr|exact Ho].
Defined.

(** [show_results] divides by [total_questions] without testing it. *)
Lemma show_results_zero_total (u : Z) (w : World) :
  total_questions (data_of u w) = Some 0 →
  user_answers (data_of u w) = Some [] →
  show_results u w = (Raise ZeroDivisionError, w).
Proof.
  intros Ht Ha. unfold show_results.
  rewrite (bind_ok _ _ _ _ _ (read_key_some u _ _ _ w Ht)).
  rewrite (bind_ok _ _ _ _ _ (read_key_some u _ _ _ w Ha)).
  done.
Qed.

(** C2: a session whose question list is empty.  The upload is admitted
    and the count 5 accepted, every model call returns no text, so
    [total_questions] is 0; the first batch is empty and [show_results]
    raises [ZeroDivisionError], which [handle_question_count] does not
    catch: no report is sent and the session is not cleared. *)
Theorem show_results_divides_by_zero :
  let w0 := step (rt := ascii_runtime) (initial_world [])
              (EvDocument 1 sample_pdf (at_time 0)) in
  let r := @handle_question_count ascii_runtime 1 (answering []) (py "5") w0 in
  fst r = Raise ZeroDivisionError
  ∧ total_questions (data_of 1 (snd r)) = Some 0
  ∧ current_questions (data_of 1 (snd r)) = Some []
  ∧ show_results 1 (snd r) = (Raise ZeroDivisionError, snd r)
  ∧ last (outbox (snd r)) = Some (DeleteMessage 1).
Proof.
  intros w0 r.
  assert (Ht : total_questions (data_of 1 (snd r)) = Some 0) by by vm_compute.
  assert (Ha : user_answers (data_of 1 (snd r)) = Some []) by by vm_compute.
  split; [by vm_compute|]. split; [done|]. split; [by vm_compute|].
  split; [by apply show_results_zero_total|by vm_compute].
Qed.

Lemma data_of_insert (u : Z) (d : UserData) (w : World) :
  data_of u (with_user_data (λ m, <[u := d]> m) w) = d.
Proof. unfold data_of. simpl. by rewrite lookup_insert_eq. Qed.

Lemma data_of_insert_ne (u v : Z) (d : UserData) (w : World) :
  v ≠ u → data_of v (with_user_data (λ m, <[u := d]> m) w) = data_of v w.
Proof. intros Hne. unfold data_of. simpl. by rewrite lookup_insert_ne. Qed.

(** The loop of [send_question_batch]: the constructor call for the first
    question of the batch raises, so only an empty batch gets through. *)
Lemma send_polls_run (u : Z) (batch : list Question) (w : World) :
  send_polls u batch w
  = (match batch with [] => Ok () | _ :: _ => Raise TypeError end, w).
Proof. by destruct batch. Qed.

(** The first part of [send_question_batch] on a stored session. *)
Lemma send_batch_and_advance_run (u : Z) (w : World) (qs : list Question) (c : Z) :
  current_questions (data_of u w) = Some qs →
  current_index (data_of u w) = Some c →
  send_batch_and_advance u w
  = match py_slice qs c (c + QUESTIONS_PER_BATCH) with
    | [] =>
        (Ok (c + QUESTIONS_PER_BATCH, len qs),
         with_user_data
           (λ m, <[u := set_current_index (c + QUESTIONS_PER_BATCH) (data_of u w)]> m)
           w)
    | _ :: _ => (Raise TypeError, w)
    end.
Proof.
  intros Hq Hc. unfold send_batch_and_advance.
  rewrite (bind_ok _ _ _ _ _ (read_key_some u _ _ _ w Hq)).
  rewrite (bind_ok _ _ _ _ _ (read_key_some u _ _ _ w Hc)).
  destruct (py_slice qs c (c + QUESTIONS_PER_BATCH)) as [|q batch].
  - by rewrite (bind_ok _ _ _ _ _ (send_polls_run u [] w)).
  - by rewrite (bind_raise _ _ _ _ _ (send_polls_run u (q :: batch) w)).
Qed.

(** The slice at a cursor below the number of questions is not empty. *)
Lemma py_slice_batch {A} (l : list A) (c : Z) :
  0 ≤ c < len l →
  ∃ x rest, py_slice l c (c + QUESTIONS_PER_BATCH) = x :: rest.
Proof.
  intros [Hlo Hhi]. rewrite py_slice_nonneg by (unfold QUESTIONS_PER_BATCH; lia).
  replace (Z.to_nat (c + QUESTIONS_PER_BATCH - c)) with 5%nat
    by (unfold QUESTIONS_PER_BATCH; lia).
  destruct (drop (Z.to_nat c) l) as [|x rest] eqn:E.
  - apply (f_equal length) in E. rewrite length_drop in E.
    unfold len in Hhi. simpl in E. lia.
  - by eexists _, _.
Qed.

(** With a question left at the cursor, [send_question_batch] raises at
    the first constructor call and leaves the state as it was. *)
Lemma send_question_batch_raises (u : Z) (w : World) (qs : list Question) (c : Z) :
  current_questions (data_of u w) = Some qs →
  current_index (data_of u w) = Some c →
  0 ≤ c < len qs →
  send_question_batch u w = (Raise TypeError, w).
Proof.
  intros Hq Hc Hin. unfold send_question_batch.
  erewrite bind_raise; [done|].
  rewrite (send_batch_and_advance_run u w qs c Hq Hc).
  by destruct (py_slice_batch qs c Hin) as (x & rest & ->).
Qed.

(** With no question left at the cursor the loop is empty, and the cursor
    is moved all the same. *)
Lemma send_batch_and_advance_past_end (u : Z) (w : World) (qs : list Question)
    (c : Z) :
  current_questions (data_of u w) = Some qs →
  current_index (data_of u w) = Some c →
  0 ≤ c → len qs ≤ c →
  send_batch_and_advance u w
  = (Ok (c + QUESTIONS_PER_BATCH, len qs),
     with_user_data
       (λ m, <[u := set_current_index (c + QUESTIONS_PER_BATCH) (data_of u w)]> m)
       w).
Proof.
  intros Hq Hc Hlo Hhi. rewrite (send_batch_and_advance_run u w qs c Hq Hc).
  rewrite py_slice_nonneg by (unfold QUESTIONS_PER_BATCH; lia).
  rewrite drop_ge by (unfold len in Hhi; lia). by rewrite take_nil.
Qed.

(** C1: the code does not do what the claim says.  On a stored session
    with a question left at the cursor, [send_question_batch] raises
    [TypeError] at the constructor call for the first poll: nothing is
    sent and the cursor stays where it was, so a repeated call fails in
    the same way and no question of the session is ever emitted.  With
    no question left at the cursor, the empty slice still moves the cursor
    by [QUESTIONS_PER_BATCH], past the number of questions.  On the
    12-question session three calls leave the cursor at 0 with no poll
    sent. *)
Theorem send_question_batch_fails_at_first_poll :
  (∀ (u : Z) (w : World) (qs : list Question) (c : Z),
     current_questions (data_of u w) = Some qs →
     current_index (data_of u w) = Some c →
     0 ≤ c < len qs →
     send_question_batch u w = (Raise TypeError, w))
  ∧ (∀ (u : Z) (w : World) (qs : list Question) (c : Z),
       current_questions (data_of u w) = Some qs →
       current_index (data_of u w) = Some c →
       0 ≤ c → len qs ≤ c →
       let w1 := snd (send_batch_and_advance u w) in
       outbox w1 = outbox w
       ∧ current_index (data_of u w1) = Some (c + QUESTIONS_PER_BATCH)
       ∧ len qs < c + QUESTIONS_PER_BATCH)
  ∧ (let w0 := world_with 1 (session_of (py "heart") twelve_questions) in
     let w1 := snd (send_question_batch 1 w0) in
     let w2 := snd (send_question_batch 1 w1) in
     let w3 := snd (send_question_batch 1 w2) in
     fst (send_question_batch 1 w0) = Raise TypeError
     ∧ fst (send_question_batch 1 w1) = Raise TypeError
     ∧ fst (send_question_batch 1 w2) = Raise TypeError
     ∧ outbox w3 = []
     ∧ current_index (data_of 1 w3) = Some 0
     ∧ total_questions (data_of 1 w3) = Some 12).
Proof.
  split; [exact send_question_batch_raises|]. split; [|by vm_compute].
  intros u w qs c Hq Hc Hlo Hhi w1. unfold w1.
  rewrite (send_batch_and_advance_past_end u w qs c Hq Hc Hlo Hhi).
  cbn [snd]. rewrite data_of_insert.
  split; [done|]. split; [done|]. unfold QUESTIONS_PER_BATCH. lia.
Qed.

(** * Further properties of the handlers *)

(** ** Admission *)

(** X1.  After every run from the start of the process, [check_limits]
    refuses a user exactly when at least [MAX_FILES_PER_HOUR] uploads of
    that user have been admitted so far and the latest of them is less
    than one hour old; in particular the first [MAX_FILES_PER_HOUR] uploads
    pass, and so does every upload an hour or more after the last one. *)
Theorem check_limits_after_run {rt : PyRuntime}
    (seed : list nat) (evs : list Event) (u : Z) (now : Z) :
  check_limits u now (user_stats (run evs (initial_world seed)))
  = negb ((MAX_FILES_PER_HOUR <=? len (admitted_uploads u evs (initial_world seed)))
          && from_option (λ t, now - t <? timedelta_hours 1) false
               (last (admitted_uploads u evs (initial_world seed)))).
Proof.
  destruct (run_counters u evs (initial_world seed)) as (Hc & Hl & Hd).
  specialize (Hd eq_refl).
  change (uploads_of u (user_stats (initial_world seed))) with 0 in Hc.
  change (last_upload_of u (user_stats (initial_world seed))) with (@None Z) in Hl.
  set (adm := admitted_uploads u evs (initial_world seed)) in *.
  unfold uploads_of, last_upload_of, daily_of, check_limits in *.
  destruct (user_stats (run evs (initial_world seed)) !! u) as [s|]; simpl in *.
  - rewrite Hd, Hc, Z.add_0_l.
    replace (last_upload s) with (last adm) by (rewrite Hl; by destruct (last adm)).
    destruct (last adm) as [t|]; simpl.
    + rewrite andb_comm. by destruct (_ && _).
    + by rewrite andb_false_r.
  - assert (adm = []) as ->.
    { destruct adm; [done|]. unfold len in Hc. simpl in Hc. lia. }
    done.
Qed.

Lemma reset_user_stats_in_window (u : Z) (t_new now : Z) (s : Stats)
    (stats : gmap Z Stats) :
  stats !! u = Some s → now - last_daily_reset s ≤ timedelta_hours 24 →
  reset_user_stats u t_new now stats = stats.
Proof.
  intros Hs Hw. unfold reset_user_stats. rewrite Hs, Hs.
  destruct (Z.ltb_spec (timedelta_hours 24) (now - last_daily_reset s)); [lia|done].
Qed.

(** X2.  After [reset_user_stats] the user has a record whose daily window
    started at most 24 hours before the clock reading, and an immediate
    second call with the same reading changes nothing. *)
Theorem reset_user_stats_fresh_window
    (u : Z) (t_new t_new' now : Z) (stats : gmap Z Stats) :
  (∃ s, reset_user_stats u t_new now stats !! u = Some s
        ∧ now - last_daily_reset s ≤ timedelta_hours 24)
  ∧ reset_user_stats u t_new' now (reset_user_stats u t_new now stats)
    = reset_user_stats u t_new now stats.
Proof.
  assert (Hfresh : ∃ s, reset_user_stats u t_new now stats !! u = Some s
                        ∧ now - last_daily_reset s ≤ timedelta_hours 24).
  { unfold reset_user_stats.
    assert (0 < timedelta_hours 24) by done.
    destruct (stats !! u) as [s|] eqn:E.
    - rewrite E.
      destruct (Z.ltb_spec (timedelta_hours 24) (now - last_daily_reset s)).
      + rewrite lookup_insert_eq. eexists. split; [done|]. simpl. lia.
      + rewrite E. eauto.
    - rewrite lookup_insert_eq. cbn [new_stats last_daily_reset].
      destruct (Z.ltb_spec (timedelta_hours 24) (now - t_new)).
      + rewrite lookup_insert_eq. eexists. split; [done|]. simpl. lia.
      + rewrite lookup_insert_eq. eexists. split; [done|]. simpl. lia. }
  split; [done|].
  destruct Hfresh as (s & Hs & Hw).
  by apply (reset_user_stats_in_window u t_new' now s).
Qed.

(** ** Documents *)

Lemma extract_text_from_file_run (doc : Document) (file_type : str) (w : World) :
  extract_text_from_file doc file_type w
  = (match extraction doc file_type with
     | Some text => Ok text
     | None => Raise ExternalError
     end, w).
Proof.
  unfold extract_text_from_file, extraction.
  destruct (bool_decide (file_type = py "pdf")); [by destruct (pdf_text doc)|].
  destruct (bool_decide (file_type ∈ _)); [|done].
  by destruct (slide_shape_texts doc).
Qed.

Section DocumentOutcome.
Context {rt : PyRuntime}.

(** [process_document] under its [try]: what is sent and stored. *)
Lemma process_document_run (u : Z) (doc : Document) (file_type : str) (w : World) :
  try_except (process_document u doc file_type)
    (λ _, send (EditMessageText u TxtProcessingFailed)) w
  = match extraction doc file_type with
    | Some (c :: text) =>
        (Ok (),
         with_user_data (λ m, <[u := uploaded (c :: text) (data_of u w)]> m)
           (with_outbox
              (λ o, o ++ [EditMessageText u
                            (TxtExtracted (str_count chr_formfeed (c :: text) + 1)
                               (offered_questions (c :: text)))]) w))
    | _ => (Ok (), with_outbox (λ o, o ++ [EditMessageText u TxtProcessingFailed]) w)
    end.
Proof.
  unfold try_except, process_document.
  destruct (extraction doc file_type) as [[|c text]|] eqn:E.
  - by rewrite (bind_ok _ _ _ _ _
                  (eq_trans (extract_text_from_file_run doc file_type w)
                     ltac:(by rewrite E))).
  - rewrite (bind_ok _ _ _ _ _
               (eq_trans (extract_text_from_file_run doc file_type w)
                  ltac:(by rewrite E))).
    unfold mbind, Bot_bind, send, update_data, with_user_data, with_outbox,
      data_of, uploaded, offered_questions. simpl.
    rewrite !lookup_insert_eq. simpl. rewrite !insert_insert_eq. done.
  - by rewrite (bind_raise _ _ _ _ _
                  (eq_trans (extract_text_from_file_run doc file_type w)
                     ltac:(by rewrite E))).
Qed.

(** [handle_document] up to the extraction. *)
Lemma handle_document_run (u : Z) (doc : Document) (clk : DocClock) (w : World) :
  handle_document u doc clk w
  = let m := reset_user_stats u (t_created clk) (t_reset clk) (user_stats w) in
    if negb (check_limits u (t_check clk) m) then
      (Ok (), with_outbox (λ o, o ++ [ReplyText u TxtLimitExceeded])
                (with_user_stats (λ _, m) w))
    else
      match file_name doc with
      | None => (Raise AttributeError, with_user_stats (λ _, m) w)
      | Some name =>
          let file_type := file_type_of name in
          if negb (bool_decide (file_type ∈ supported_types)) then
            (Ok (), with_outbox (λ o, o ++ [ReplyText u TxtUnsupportedType])
                      (with_user_stats (λ _, m) w))
          else
            try_except (process_document u doc file_type)
              (λ _, send (EditMessageText u TxtProcessingFailed))
              (with_outbox
                 (λ o, ((o ++ [ReplyText u TxtDownloading]) ++ [Download u file_type])
                       ++ [EditMessageText u TxtProcessing])
                 (with_user_stats (λ _, charge u (t_upload clk) m) w))
      end.
Proof.
  cbv zeta. unfold handle_document.
  set (m := reset_user_stats u (t_created clk) (t_reset clk) (user_stats w)).
  set (w1 := with_user_stats (reset_user_stats u (t_created clk) (t_reset clk)) w).
  assert (E1 : update_stats (reset_user_stats u (t_created clk) (t_reset clk)) w
               = (Ok (), w1)) by done.
  rewrite (bind_ok _ _ _ _ _ E1).
  assert (E2 : get_stats w1 = (Ok m, w1)) by done.
  rewrite (bind_ok _ _ _ _ _ E2).
  destruct (check_limits u (t_check clk) m); simpl; [|done].
  destruct (file_name doc) as [name|]; [|done].
  destruct (bool_decide _); simpl; [|done].
  rewrite (bind_ok _ _ _ _ _ E2).
  destruct (reset_user_stats_self u (t_created clk) (t_reset clk) (user_stats w))
    as (s & Hs & _).
  fold m in Hs. unfold charge. rewrite Hs. done.
Qed.

Lemma handle_document_result (u : Z) (doc : Document) (clk : DocClock) (w : World) :
  user_data (snd (handle_document u doc clk w))
  = match ingested u doc clk w with
    | Some text => <[u := uploaded text (data_of u w)]> (user_data w)
    | None => user_data w
    end
  ∧ ∀ name, file_name doc = Some name →
      fst (handle_document u doc clk w) = Ok ()
      ∧ last (outbox (snd (handle_document u doc clk w)))
        = Some
            (if negb (check_limits u (t_check clk)
                        (reset_user_stats u (t_created clk) (t_reset clk)
                           (user_stats w)))
             then ReplyText u TxtLimitExceeded
             else if negb (bool_decide (file_type_of name ∈ supported_types))
             then ReplyText u TxtUnsupportedType
             else match ingested u doc clk w with
                  | Some text =>
                      EditMessageText u
                        (TxtExtracted (str_count chr_formfeed text + 1)
                           (offered_questions text))
                  | None => EditMessageText u TxtProcessingFailed
                  end).
Proof.
  rewrite handle_document_run. cbv zeta. unfold ingested, admitted.
  destruct (check_limits u (t_check clk) _); simpl.
  2: { split; [done|]. intros name _. split; [done|]. apply last_snoc. }
  destruct (file_name doc) as [name|]; [|done].
  destruct (bool_decide _) eqn:Hb; simpl.
  2: { split; [done|]. intros ? [= <-]. split; [done|].
       rewrite Hb. apply last_snoc. }
  rewrite process_document_run.
  destruct (extraction doc _) as [[|c text]|] eqn:E; simpl;
    (split; [done|]; intros ? [= <-]; split; [done|];
     rewrite Hb; simpl; rewrite ?E; apply last_snoc).
Qed.
End DocumentOutcome.

(** X3.  A document without file name that passes the quota gate makes
    [handle_document] fail with [AttributeError] where the file type is
    read from the name: the record of the user has been created or reset,
    but nothing is charged, sent or stored. *)
Theorem handle_document_without_file_name {rt : PyRuntime}
    (u : Z) (doc : Document) (clk : DocClock) (w : World) :
  file_name doc = None →
  check_limits u (t_check clk)
    (reset_user_stats u (t_created clk) (t_reset clk) (user_stats w)) = true →
  let m := reset_user_stats u (t_created clk) (t_reset clk) (user_stats w) in
  handle_document u doc clk w = (Raise AttributeError, with_user_stats (λ _, m) w)
  ∧ uploads_of u m = uploads_of u (user_stats w)
  ∧ last_upload_of u m = last_upload_of u (user_stats w).
Proof.
  intros Hname Hgate m. split; [|apply reset_user_stats_counters].
  rewrite handle_document_run. cbv zeta. fold m in Hgate |- *.
  by rewrite Hgate, Hname.
Qed.

(** The first upload of a user, a document without name. *)
Lemma handle_document_without_file_name_witness :
  let doc := {| file_name := None; pdf_text := Some (py "heart");
                slide_shape_texts := None |} in
  let r := handle_document (rt := ascii_runtime) 1 doc (at_time 0) (initial_world []) in
  fst r = Raise AttributeError
  ∧ outbox (snd r) = []
  ∧ user_data (snd r) = ∅
  ∧ user_stats (snd r) !! 1 = Some (new_stats 0).
Proof.
  intros doc r.
  destruct (handle_document_without_file_name (rt := ascii_runtime) 1 doc
              (at_time 0) (initial_world []) eq_refl eq_refl) as [Hrun _].
  unfold r. rewrite Hrun. by vm_compute.
Defined.

(** X4.  An upload that is refused by the quota gate or for its file type,
    or whose extraction raises or returns no text, leaves the dict of every
    user as it was (a session in progress survives), and the last message
    sent, for a document that has a file name, says which of the three
    happened. *)
Theorem handle_document_failure_keeps_session {rt : PyRuntime}
    (u : Z) (doc : Document) (clk : DocClock) (w : World) :
  ingested u doc clk w = None →
  user_data (snd (handle_document u doc clk w)) = user_data w
  ∧ ∀ name, file_name doc = Some name →
      ∃ t, last (outbox (snd (handle_document u doc clk w))) = Some t
           ∧ t ∈ [ReplyText u TxtLimitExceeded; ReplyText u TxtUnsupportedType;
                  EditMessageText u TxtProcessingFailed].
Proof.
  intros Hnone.
  destruct (handle_document_result u doc clk w) as (Hd & Hl).
  rewrite Hnone in Hd. split; [done|]. intros name Hname.
  destruct (Hl name Hname) as [_ Hlast]. rewrite Hnone in Hlast.
  eexists. split; [exact Hlast|].
  destruct (negb (check_limits _ _ _)); [by constructor|].
  destruct (negb (bool_decide _)); by repeat constructor.
Qed.

(** A pdf without text, and a presentation the library cannot open. *)
Lemma handle_document_failure_keeps_session_witness :
  let empty := {| file_name := Some (py "scan.PDF"); pdf_text := Some [];
                  slide_shape_texts := None |} in
  let broken := {| file_name := Some (py "talk.pptx"); pdf_text := None;
                   slide_shape_texts := None |} in
  let w := world_with 1 (session_of (py "heart") twelve_questions) in
  user_data (snd (handle_document (rt := ascii_runtime) 1 empty (at_time 0) w))
  = user_data w
  ∧ user_data (snd (handle_document (rt := ascii_runtime) 1 broken (at_time 0) w))
    = user_data w.
Proof.
  intros empty broken w. split.
  - apply (handle_document_failure_keeps_session (rt := ascii_runtime)).
    by vm_compute.
  - apply (handle_document_failure_keeps_session (rt := ascii_runtime)).
    by vm_compute.
Defined.

(** X5.  An admitted upload whose extraction returns a non-empty text
    stores the text, resets the question and answer lists and the score,
    and offers a number of questions between [MIN_QUESTIONS] and
    [MAX_QUESTIONS_PER_FILE] (twice the number of pages inside that range);
    [total_questions] and [current_index] of an earlier session are left in
    the dict, and the dicts of other users are not touched. *)
Theorem handle_document_stores_upload {rt : PyRuntime}
    (u : Z) (doc : Document) (clk : DocClock) (w : World) (text : str) :
  ingested u doc clk w = Some text →
  let w' := snd (handle_document u doc clk w) in
  let pages := str_count chr_formfeed text + 1 in
  file_text (data_of u w') = Some text
  ∧ (∃ n, max_questions (data_of u w') = Some n
          ∧ MIN_QUESTIONS ≤ n ≤ MAX_QUESTIONS_PER_FILE
          ∧ n = Z.min MAX_QUESTIONS_PER_FILE (Z.max MIN_QUESTIONS (pages * 2))
          ∧ last (outbox w') = Some (EditMessageText u (TxtExtracted pages n)))
  ∧ current_questions (data_of u w') = Some []
  ∧ user_answers (data_of u w') = Some []
  ∧ score (data_of u w') = Some 0
  ∧ total_questions (data_of u w') = total_questions (data_of u w)
  ∧ current_index (data_of u w') = current_index (data_of u w)
  ∧ ∀ v, v ≠ u → data_of v w' = data_of v w.
Proof.
  intros Hing w' pages.
  destruct (handle_document_result u doc clk w) as (Hd & Hres).
  assert (Hgate : admitted u doc clk w = true).
  { unfold ingested in Hing. by destruct (admitted u doc clk w). }
  unfold admitted in Hgate. apply andb_true_iff in Hgate as [Hc Ht].
  destruct (file_name doc) as [name|] eqn:Hname; [|done].
  destruct (Hres name eq_refl) as [_ Hl].
  rewrite Hing in Hd, Hl.
  rewrite Hc, Ht in Hl. simpl in Hl.
  assert (Hu : data_of u w' = uploaded text (data_of u w)).
  { unfold data_of at 1. unfold w'. rewrite Hd. by rewrite lookup_insert_eq. }
  rewrite Hu. split; [done|]. split.
  { eexists. split; [done|]. split; [|split; [done|exact Hl]].
    unfold offered_questions, MIN_QUESTIONS, MAX_QUESTIONS_PER_FILE. lia. }
  repeat (split; [done|]).
  intros v Hne. unfold data_of, w'. rewrite Hd. by rewrite lookup_insert_ne.
Qed.

(** A pdf of three pages uploaded over a session at cursor 5. *)
Lemma handle_document_stores_upload_witness :
  let doc := {| file_name := Some (py "notes.pdf");
                pdf_text := Some (py "heart" ++ [chr_formfeed] ++ py "lungs"
                                  ++ [chr_formfeed] ++ py "liver");
                slide_shape_texts := None |} in
  let w := world_with 1 (set_current_index 5
                           (session_of (py "old") twelve_questions)) in
  let w' := snd (handle_document (rt := ascii_runtime) 1 doc (at_time 0) w) in
  max_questions (data_of 1 w') = Some 6
  ∧ current_questions (data_of 1 w') = Some []
  ∧ total_questions (data_of 1 w') = Some 12
  ∧ current_index (data_of 1 w') = Some 5.
Proof.
  intros doc w w'. subst w'.
  destruct (handle_document_stores_upload (rt := ascii_runtime) 1 doc (at_time 0) w
              (py "heart" ++ [chr_formfeed] ++ py "lungs"
               ++ [chr_formfeed] ++ py "liver"))
    as (_ & (n & Hn & _ & Hval & _) & Hq & _ & _ & Ht & Hi & _); [by vm_compute|].
  split; [rewrite Hn, Hval; by vm_compute|].
  split; [exact Hq|]. split; [rewrite Ht; by vm_compute|].
  rewrite Hi. by vm_compute.
Defined.

(** ** The question count *)

(** X6.  A message that [int] cannot parse, or a count outside
    [[MIN_QUESTIONS, max_questions]] (with [MIN_QUESTIONS] as the bound when
    no document was processed), is answered with one reply and nothing
    else: the session, the usage dict and the random generator are as
    before and the model is not called. *)
Theorem handle_question_count_rejects {rt : PyRuntime}
    (u : Z) (qg : Pipeline) (text : str) (w : World) :
  (∀ n, int_of_str text = Some n →
        ¬ (MIN_QUESTIONS ≤ n ≤ default MIN_QUESTIONS (max_questions (data_of u w)))) →
  handle_question_count u qg text w
  = (Ok (),
     with_outbox
       (λ o, o ++ [ReplyText u
                     match int_of_str text with
                     | None => TxtNotANumber
                     | Some _ =>
                         TxtCountOutOfRange
                           (default MIN_QUESTIONS (max_questions (data_of u w)))
                     end]) w).
Proof.
  intros Hbad. unfold handle_question_count, try_except, count_session.
  destruct (int_of_str text) as [n|]; [|done].
  assert (E : get_data u w = (Ok (data_of u w), w)) by done.
  rewrite (bind_ok _ _ _ _ _ E).
  specialize (Hbad n eq_refl).
  destruct (Z.leb_spec MIN_QUESTIONS n); simpl; [|done].
  destruct (Z.leb_spec n (default MIN_QUESTIONS (max_questions (data_of u w))));
    simpl; [lia|done].
Qed.

(** The count 4 after an upload that offers 5 to 6 questions, and a text
    that is no number. *)
Lemma handle_question_count_rejects_witness :
  let w := world_with 1 (set_max_questions 6 (session_of (py "heart") [])) in
  let qg : Pipeline := answering [py "What?"] in
  handle_question_count (rt := ascii_runtime) 1 qg (py "4") w
  = (Ok (), with_outbox (λ o, o ++ [ReplyText 1 (TxtCountOutOfRange 6)]) w)
  ∧ handle_question_count (rt := ascii_runtime) 1 qg (py "five") w
    = (Ok (), with_outbox (λ o, o ++ [ReplyText 1 TxtNotANumber]) w).
Proof.
  intros w qg. split.
  - apply (handle_question_count_rejects (rt := ascii_runtime) 1 qg (py "4") w).
    intros n Hn. vm_compute in Hn. injection Hn as <-. vm_compute. intros [Hlo _].
    by apply Hlo.
  - apply (handle_question_count_rejects (rt := ascii_runtime) 1 qg (py "five") w).
    intros n Hn. by vm_compute in Hn.
Defined.

(** X7.  A count that passes the range test while no text is stored (the
    count [MIN_QUESTIONS] from a user who has not uploaded, or whose
    session was cleared by the report) makes [handle_question_count] fail
    with [KeyError], which its [except ValueError] does not catch; nothing
    is sent or changed. *)
Theorem handle_question_count_without_text {rt : PyRuntime}
    (u : Z) (qg : Pipeline) (text : str) (w : World) (n : Z) :
  int_of_str text = Some n →
  MIN_QUESTIONS ≤ n ≤ default MIN_QUESTIONS (max_questions (data_of u w)) →
  file_text (data_of u w) = None →
  handle_question_count u qg text w = (Raise (KeyError "file_text"), w).
Proof.
  intros Hn [Hlo Hhi] Hfile.
  unfold handle_question_count, try_except, count_session. rewrite Hn.
  assert (E : get_data u w = (Ok (data_of u w), w)) by done.
  rewrite (bind_ok _ _ _ _ _ E).
  rewrite (proj2 (Z.leb_le _ _) Hlo), (proj2 (Z.leb_le _ _) Hhi). simpl.
  by rewrite (bind_raise _ _ _ _ _ (read_key_none u "file_text" file_text w Hfile)).
Qed.

(** The message "5" from a user the bot has never seen. *)
Lemma handle_question_count_without_text_witness :
  handle_question_count (rt := ascii_runtime) 7 (answering [py "What?"]) (py "5")
    (initial_world [])
  = (Raise (KeyError "file_text"), initial_world []).
Proof.
  apply (handle_question_count_without_text (rt := ascii_runtime) 7 _ (py "5")
           (initial_world []) 5); by vm_compute.
Defined.

(** ** The report *)

Lemma py_index_reads {A} (l : list A) (i : Z) (w : World) :
  snd (py_index l i w) = w.
Proof.
  unfold py_index. destruct (_ <? 0); [done|]. by destruct (l !! _).
Qed.

(** Counting the correct answers reads the state and never writes it. *)
Lemma count_correct_reads (u : Z) (answers : list Answer) (w : World) :
  snd (count_correct u answers w) = w.
Proof.
  induction answers as [|a answers IH]; simpl; [done|].
  destruct (current_questions (data_of u w)) as [qs|] eqn:Hq.
  - rewrite (bind_ok _ _ _ _ _ (read_key_some u _ _ _ w Hq)).
    pose proof (py_index_reads qs (question_idx a) w) as Hp.
    destruct (py_index qs (question_idx a) w) as [[q|e] w1] eqn:E;
      simpl in Hp; subst w1.
    + rewrite (bind_ok _ _ _ _ _ E).
      destruct (count_correct u answers w) as [[n|e] w2] eqn:E2;
        simpl in IH; subst w2.
      * by rewrite (bind_ok _ _ _ _ _ E2).
      * by rewrite (bind_raise _ _ _ _ _ E2).
    + by rewrite (bind_raise _ _ _ _ _ E).
  - by rewrite (bind_raise _ _ _ _ _ (read_key_none u _ _ w Hq)).
Qed.

(** With the questions stored and every answer attributed to a stored
    question, the count is the number of answers that select the correct
    option of their question. *)
Lemma count_correct_run (u : Z) (qs : list Question) (answers : list Answer)
    (w : World) :
  current_questions (data_of u w) = Some qs →
  Forall (λ a, 0 ≤ question_idx a < len qs) answers →
  count_correct u answers w = (Ok (len (List.filter (is_correct qs) answers)), w).
Proof.
  intros Hq Hall. induction Hall as [|a answers Ha _ IH]; simpl; [done|].
  rewrite (bind_ok _ _ _ _ _ (read_key_some u _ _ _ w Hq)).
  destruct (lookup_lt_is_Some_2 qs (Z.to_nat (question_idx a))) as [q Hlook].
  { unfold len in Ha. lia. }
  assert (E : py_index qs (question_idx a) w = (Ok q, w)).
  { rewrite <- (Z2Nat.id (question_idx a)) at 1 by lia.
    by apply py_index_run. }
  rewrite (bind_ok _ _ _ _ _ E), (bind_ok _ _ _ _ _ IH).
  assert (Hc : is_correct qs a = (selected a =? correct_idx q))
    by (unfold is_correct; by rewrite Hlook).
  cbn [List.filter]. rewrite Hc.
  destruct (selected a =? correct_idx q); unfold mret, Bot_ret, len;
    cbn [length]; do 2 f_equal; lia.
Qed.

Lemma count_correct_bound (u : Z) (answers : list Answer) :
  ∀ (w : World) (n : Z),
    fst (count_correct u answers w) = Ok n → 0 ≤ n ≤ len answers.
Proof.
  induction answers as [|a answers IH]; intros w n; simpl.
  - unfold len. simpl. intros [= <-]. lia.
  - unfold mbind, Bot_bind.
    destruct (read_key u "current_questions" current_questions w) as [[qs|e] w1];
      [|done].
    destruct (py_index qs (question_idx a) w1) as [[q|e] w2]; [|done].
    destruct (count_correct u answers w2) as [[m|e] w3] eqn:E; [|done].
    simpl. intros [= <-].
    specialize (IH w2 m). rewrite E in IH. specialize (IH eq_refl).
    unfold len in *. simpl. destruct (_ =? _); lia.
Qed.

(** X8.  [show_results] either sends the report and clears the whole dict
    of the user, or raises and leaves everything as it was: nothing is sent
    and nothing is cleared.  When it reports, the number of correct answers
    lies between 0 and the number of answers recorded. *)
Theorem show_results_all_or_nothing (u : Z) (w : World) :
  match show_results u w with
  | (Ok _, w') =>
      data_of u w' = empty_data
      ∧ (∀ v, v ≠ u → data_of v w' = data_of v w)
      ∧ user_stats w' = user_stats w
      ∧ ∃ correct total accuracy answers,
          total_questions (data_of u w) = Some total
          ∧ total ≠ 0
          ∧ user_answers (data_of u w) = Some answers
          ∧ 0 ≤ correct ≤ len answers
          ∧ outbox w' = outbox w ++ [SendMessage u (TxtScore correct total accuracy) false]
  | (Raise _, w') => w' = w
  end.
Proof.
  unfold show_results.
  destruct (total_questions (data_of u w)) as [total|] eqn:Ht.
  2: { by rewrite (bind_raise _ _ _ _ _ (read_key_none u _ _ w Ht)). }
  rewrite (bind_ok _ _ _ _ _ (read_key_some u _ _ _ w Ht)).
  destruct (user_answers (data_of u w)) as [answers|] eqn:Ha.
  2: { by rewrite (bind_raise _ _ _ _ _ (read_key_none u _ _ w Ha)). }
  rewrite (bind_ok _ _ _ _ _ (read_key_some u _ _ _ w Ha)).
  pose proof (count_correct_reads u answers w) as Hw.
  pose proof (count_correct_bound u answers w) as Hb.
  destruct (count_correct u answers w) as [[correct|e] w1] eqn:Ec;
    simpl in Hw; subst w1.
  2: { by rewrite (bind_raise _ _ _ _ _ Ec). }
  rewrite (bind_ok _ _ _ _ _ Ec).
  destruct (Z.eqb_spec total 0) as [->|Hne]; [done|].
  unfold mbind, Bot_bind, mret, Bot_ret, send, update_data. simpl.
  split; [by rewrite data_of_insert|].
  split; [intros v Hv; by rewrite data_of_insert_ne|].
  split; [done|].
  exists correct, total, (accuracy_tenths correct total), answers.
  repeat (split; [auto|]). done.
Qed.

(** X9.  When the questions are stored and every recorded answer is
    attributed to one of them, the report counts exactly the answers that
    select the correct option of the question at their index. *)
Theorem show_results_counts_matching_answers
    (u : Z) (w : World) (qs : list Question) (answers : list Answer) (total : Z) :
  total_questions (data_of u w) = Some total →
  total ≠ 0 →
  user_answers (data_of u w) = Some answers →
  current_questions (data_of u w) = Some qs →
  Forall (λ a, 0 ≤ question_idx a < len qs) answers →
  ∃ accuracy,
    fst (show_results u w) = Ok ()
    ∧ outbox (snd (show_results u w))
      = outbox w
        ++ [SendMessage u
              (TxtScore (len (List.filter (is_correct qs) answers)) total accuracy)
              false].
Proof.
  intros Ht Hne Ha Hq Hall. unfold show_results.
  rewrite (bind_ok _ _ _ _ _ (read_key_some u _ _ _ w Ht)).
  rewrite (bind_ok _ _ _ _ _ (read_key_some u _ _ _ w Ha)).
  rewrite (bind_ok _ _ _ _ _ (count_correct_run u qs answers w Hq Hall)).
  destruct (Z.eqb_spec total 0) as [->|_]; [done|].
  by eexists.
Qed.

(** Three answers to a 12-question session, the second one correct. *)
Lemma show_results_counts_matching_answers_witness :
  let answers := [{| question_idx := 0; selected := 0 |};
                  {| question_idx := 1; selected := 1 |};
                  {| question_idx := 2; selected := 3 |}] in
  let w := world_with 1 (set_user_answers answers
                           (session_of (py "heart") twelve_questions)) in
  ∃ accuracy,
    outbox (snd (show_results 1 w))
    = [SendMessage 1 (TxtScore 1 12 accuracy) false].
Proof.
  intros answers w.
  destruct (show_results_counts_matching_answers 1 w twelve_questions answers 12)
    as (accuracy & _ & Hout); [reflexivity|done|reflexivity|reflexivity| |].
  - repeat constructor; by vm_compute.
  - exists accuracy. exact Hout.
Defined.

Lemma count_correct_overflow (u : Z) (qs : list Question) (w : World)
    (answers : list Answer) :
  current_questions (data_of u w) = Some qs →
  ∀ k : nat,
    (∀ i a, answers !! i = Some a → question_idx a = Z.of_nat (k + i)) →
    (k ≤ length qs < k + length answers)%nat →
    count_correct u answers w = (Raise IndexError, w).
Proof.
  intros Hq. induction answers as [|a answers IH]; intros k Hnum Hlen; simpl in *.
  - lia.
  - rewrite (bind_ok _ _ _ _ _ (read_key_some u _ _ _ w Hq)).
    assert (Hk : question_idx a = Z.of_nat k).
    { rewrite (Hnum 0%nat a eq_refl). f_equal. lia. }
    rewrite Hk.
    destruct (qs !! k) as [q|] eqn:Hlook.
    + rewrite (bind_ok _ _ _ _ _ (py_index_run qs k q w Hlook)).
      apply lookup_lt_Some in Hlook.
      rewrite (bind_raise _ _ _ _ _ (IH (S k) ltac:(intros i b Hb;
        rewrite (Hnum (S i) b Hb); f_equal; lia) ltac:(lia))).
      done.
    + erewrite bind_raise; [done|].
      unfold py_index.
      assert (E : (Z.of_nat k <? 0) = false) by (apply Z.ltb_ge; lia).
      by rewrite !E, Nat2Z.id, Hlook.
Qed.

(** X10.  When more answers are recorded than questions are stored (the
    answers being numbered by arrival), [show_results] raises [IndexError]
    and reports nothing. *)
Theorem show_results_more_answers_than_questions
    (u : Z) (w : World) (qs : list Question) (answers : list Answer) (total : Z) :
  total_questions (data_of u w) = Some total →
  user_answers (data_of u w) = Some answers →
  current_questions (data_of u w) = Some qs →
  numbered answers →
  len qs < len answers →
  show_results u w = (Raise IndexError, w).
Proof.
  intros Ht Ha Hq Hnum Hlen. unfold show_results.
  rewrite (bind_ok _ _ _ _ _ (read_key_some u _ _ _ w Ht)).
  rewrite (bind_ok _ _ _ _ _ (read_key_some u _ _ _ w Ha)).
  erewrite bind_raise; [done|].
  apply (count_correct_overflow u qs w answers Hq 0).
  - intros i a Hi. by apply Hnum.
  - unfold len in Hlen. lia.
Qed.

(** An answer that arrives after a new upload has emptied the question
    list, followed by the report. *)
Lemma show_results_more_answers_than_questions_witness :
  let w := world_with 1 (set_user_answers [{| question_idx := 0; selected := 2 |}]
                           (set_current_questions []
                              (session_of (py "heart") twelve_questions))) in
  show_results 1 w = (Raise IndexError, w).
Proof.
  intros w.
  apply (show_results_more_answers_than_questions 1 w []
           [{| question_idx := 0; selected := 2 |}] 12);
    try reflexivity.
  intros [|i] a; [by intros [= <-]|done].
Defined.

(** ** Answers are numbered by arrival *)

Lemma keeps_numbering_data {A} (m : Bot A) :
  (∀ w, user_data (snd (m w)) = user_data w) → keeps_numbering m.
Proof.
  intros Hm w Hw u answers. unfold data_of. rewrite Hm. apply Hw.
Qed.

Lemma keeps_numbering_ret {A} (a : A) : keeps_numbering (mret a).
Proof. by apply keeps_numbering_data. Qed.

Lemma keeps_numbering_raise {A} (e : exn) : keeps_numbering (@raise A e).
Proof. by apply keeps_numbering_data. Qed.

Lemma keeps_numbering_bind {A B} (m : Bot A) (f : A → Bot B) :
  keeps_numbering m → (∀ a, keeps_numbering (f a)) → keeps_numbering (m ≫= f).
Proof.
  intros Hm Hf w Hw. unfold mbind, Bot_bind.
  specialize (Hm w Hw). destruct (m w) as [[a|e] w']; simpl in *.
  - by apply Hf.
  - done.
Qed.

Lemma keeps_numbering_try {A} (m : Bot A) (h : exn → Bot A) :
  keeps_numbering m → (∀ e, keeps_numbering (h e)) → keeps_numbering (try_except m h).
Proof.
  intros Hm Hh w Hw. unfold try_except.
  specialize (Hm w Hw). destruct (m w) as [[a|e] w']; simpl in *.
  - done.
  - by apply Hh.
Qed.

Lemma keeps_numbering_send (a : Action) : keeps_numbering (send a).
Proof. by apply keeps_numbering_data. Qed.

Lemma keeps_numbering_get_data (u : Z) : keeps_numbering (get_data u).
Proof. by apply keeps_numbering_data. Qed.

Lemma keeps_numbering_get_stats : keeps_numbering get_stats.
Proof. by apply keeps_numbering_data. Qed.

Lemma keeps_numbering_update_stats (f : gmap Z Stats → gmap Z Stats) :
  keeps_numbering (update_stats f).
Proof. by apply keeps_numbering_data. Qed.

Lemma keeps_numbering_randbelow (n : nat) : keeps_numbering (randbelow n).
Proof. by apply keeps_numbering_data. Qed.

Lemma keeps_numbering_call_pipeline (qg : Pipeline) (i : nat) (prompt : str) :
  keeps_numbering (call_pipeline qg i prompt).
Proof.
  apply keeps_numbering_data. intros w. unfold call_pipeline.
  by destruct (qg i prompt).
Qed.

Lemma keeps_numbering_from_external {A} (r : option A) :
  keeps_numbering (from_external r).
Proof. destruct r; by apply keeps_numbering_data. Qed.

Lemma keeps_numbering_py_index {A} (l : list A) (i : Z) :
  keeps_numbering (py_index l i).
Proof.
  apply keeps_numbering_data. intros w. by rewrite py_index_reads.
Qed.

Lemma keeps_numbering_py_assign {A} (l : list A) (i : Z) (v : A) :
  keeps_numbering (py_assign l i v).
Proof.
  apply keeps_numbering_data. intros w. unfold py_assign. by destruct (_ || _).
Qed.

(** Storing a dict whose answer list is numbered. *)
Lemma keeps_numbering_update_data (u : Z) (f : UserData → UserData) :
  (∀ d answers,
     (∀ old, user_answers d = Some old → numbered old) →
     user_answers (f d) = Some answers → numbered answers) →
  keeps_numbering (update_data u f).
Proof.
  intros Hf w Hw v answers. unfold update_data. simpl.
  destruct (decide (v = u)) as [->|Hne].
  - rewrite data_of_insert. apply Hf. intros old. apply Hw.
  - rewrite data_of_insert_ne by done. apply Hw.
Qed.

Lemma keeps_numbering_update_other (u : Z) (f : UserData → UserData) :
  (∀ d, user_answers (f d) = user_answers d) → keeps_numbering (update_data u f).
Proof.
  intros Hf. apply keeps_numbering_update_data.
  intros d answers Hd. rewrite Hf. apply Hd.
Qed.

Lemma numbered_nil : numbered [].
Proof. by intros i a. Qed.

Lemma numbered_snoc (answers : list Answer) (choice : Z) :
  numbered answers →
  numbered (answers ++ [{| question_idx := len answers; selected := choice |}]).
Proof.
  intros Hn i a Hi.
  apply lookup_app_Some in Hi as [H1|[Hge H2]].
  - by apply Hn.
  - destruct (i - length answers)%nat as [|j] eqn:E; simpl in H2; [|done].
    injection H2 as <-. simpl. unfold len. f_equal. lia.
Qed.

Lemma keeps_numbering_reset_answers (u : Z) :
  keeps_numbering (update_data u (set_user_answers [])).
Proof.
  apply keeps_numbering_update_data. intros d answers _ [= <-]. apply numbered_nil.
Qed.

Lemma keeps_numbering_clear (u : Z) :
  keeps_numbering (update_data u (λ _, empty_data)).
Proof. apply keeps_numbering_update_data. by intros d answers _. Qed.

Create HintDb numbering discriminated.

#[export] Hint Resolve keeps_numbering_ret keeps_numbering_raise
  keeps_numbering_send keeps_numbering_get_data keeps_numbering_get_stats
  keeps_numbering_update_stats keeps_numbering_randbelow
  keeps_numbering_call_pipeline keeps_numbering_from_external
  keeps_numbering_py_index keeps_numbering_py_assign
  keeps_numbering_reset_answers keeps_numbering_clear : numbering.

#[export] Hint Extern 2 (keeps_numbering (update_data _ _)) =>
  apply keeps_numbering_update_other; intros ?; reflexivity : numbering.

Ltac numbering :=
  repeat first
    [ progress auto with numbering
    | apply keeps_numbering_bind; [|intros ?]
    | apply keeps_numbering_try; [|intros ?]
    | match goal with
      | |- keeps_numbering (match ?x with _ => _ end) => destruct x
      | |- keeps_numbering (let (_, _) := ?x in _) => destruct x
      end ].

Lemma keeps_numbering_read_key {A} (u : Z) (key : string)
    (field : UserData → option A) :
  keeps_numbering (read_key u key field).
Proof. unfold read_key. numbering. Qed.

#[export] Hint Resolve keeps_numbering_read_key : numbering.

Lemma keeps_numbering_sample_loop {A} (k : nat) :
  ∀ (n : nat) (pool : list A), keeps_numbering (sample_loop k n pool).
Proof. induction k as [|k IH]; intros n pool; simpl; numbering. Qed.

Lemma keeps_numbering_random_sample {A} (population : list A) (k : nat) :
  keeps_numbering (random_sample population k).
Proof. unfold random_sample. numbering. apply keeps_numbering_sample_loop. Qed.

Lemma keeps_numbering_random_randint (a b : Z) : keeps_numbering (random_randint a b).
Proof. unfold random_randint. numbering. Qed.

Lemma keeps_numbering_Poll_init (kw : PollArgs) : keeps_numbering (Poll_init kw).
Proof. unfold Poll_init. numbering. Qed.

#[export] Hint Resolve keeps_numbering_Poll_init : numbering.

Lemma keeps_numbering_send_polls (u : Z) (batch : list Question) :
  keeps_numbering (send_polls u batch).
Proof. induction batch as [|q batch IH]; simpl; unfold send_poll; numbering. Qed.

Lemma keeps_numbering_count_correct (u : Z) (answers : list Answer) :
  keeps_numbering (count_correct u answers).
Proof. induction answers as [|a answers IH]; simpl; numbering. Qed.

#[export] Hint Resolve keeps_numbering_random_sample keeps_numbering_random_randint
  keeps_numbering_send_polls keeps_numbering_count_correct : numbering.

Lemma keeps_numbering_show_results (u : Z) : keeps_numbering (show_results u).
Proof. unfold show_results. numbering. Qed.

#[export] Hint Resolve keeps_numbering_show_results : numbering.

Lemma keeps_numbering_send_question_batch (u : Z) :
  keeps_numbering (send_question_batch u).
Proof. unfold send_question_batch, send_batch_and_advance. numbering. Qed.

#[export] Hint Resolve keeps_numbering_send_question_batch : numbering.

Lemma keeps_numbering_next_batch (u : Z) : keeps_numbering (next_batch u).
Proof. unfold next_batch. numbering. Qed.

Lemma keeps_numbering_start (u : Z) (t_new now : Z) :
  keeps_numbering (start u t_new now).
Proof. unfold start. numbering. Qed.

(** The answer appended by [handle_poll_answer] carries the length of the
    list it is appended to. *)
Lemma keeps_numbering_handle_poll_answer (u : Z) (ids : list Z) :
  keeps_numbering (handle_poll_answer u ids).
Proof.
  unfold handle_poll_answer.
  apply keeps_numbering_bind; [numbering|intros d].
  apply keeps_numbering_bind; [numbering|intros []].
  intros w Hw.
  destruct (user_answers (data_of u w)) as [answers|] eqn:Ha.
  - rewrite (bind_ok _ _ _ _ _ (read_key_some u _ _ _ w Ha)).
    pose proof (py_index_reads ids 0 w) as Hp.
    destruct (py_index ids 0 w) as [[choice|e] w1] eqn:E; simpl in Hp; subst w1.
    + rewrite (bind_ok _ _ _ _ _ E).
      apply keeps_numbering_update_data; [|done].
      intros d' l Hd' [= <-]. apply numbered_snoc. by apply (Hw u).
    + by rewrite (bind_raise _ _ _ _ _ E).
  - by rewrite (bind_raise _ _ _ _ _ (read_key_none u _ _ w Ha)).
Qed.

Section NumberingProperties.
Context {rt : PyRuntime}.

Lemma keeps_numbering_generate_loop (qg : Pipeline) (context : str) (n : nat) :
  ∀ i questions, keeps_numbering (generate_loop qg context i n questions).
Proof.
  induction n as [|n IH]; intros i questions; simpl;
    unfold generate_options, correct_option; numbering.
Qed.

Lemma keeps_numbering_handle_question_count (u : Z) (qg : Pipeline) (text : str) :
  keeps_numbering (handle_question_count u qg text).
Proof.
  pose proof keeps_numbering_generate_loop.
  unfold handle_question_count, count_session, generate_questions. numbering.
Qed.

Lemma keeps_numbering_handle_document (u : Z) (doc : Document) (clk : DocClock) :
  keeps_numbering (handle_document u doc clk).
Proof.
  unfold handle_document, process_document, extract_text_from_file. numbering.
Qed.

Lemma keeps_numbering_handle (e : Event) : keeps_numbering (handle e).
Proof.
  destruct e; simpl;
    auto using keeps_numbering_start, keeps_numbering_handle_document,
      keeps_numbering_handle_question_count, keeps_numbering_next_batch,
      keeps_numbering_handle_poll_answer.
Qed.

Lemma run_numbering (evs : list Event) :
  ∀ w, answers_numbered w → answers_numbered (run evs w).
Proof.
  induction evs as [|e evs IH]; intros w Hw; simpl; [done|].
  apply IH. by apply keeps_numbering_handle.
Qed.
End NumberingProperties.

(** X11.  After every run from the start of the process, in the dict of
    every user the answer recorded at position [i] carries
    [question_idx = i]: answers are attributed to questions by their order
    of arrival, whatever poll they answer. *)
Theorem answers_numbered_by_arrival {rt : PyRuntime}
    (seed : list nat) (evs : list Event) (u : Z) (answers : list Answer)
    (i : nat) (a : Answer) :
  user_answers (data_of u (run evs (initial_world seed))) = Some answers →
  answers !! i = Some a →
  question_idx a = Z.of_nat i.
Proof.
  intros Ha Hi.
  apply (run_numbering evs (initial_world seed)) with (u := u) (answers := answers);
    [|done..].
  by intros v l.
Qed.

(** A document, then two answers. *)
Lemma answers_numbered_by_arrival_witness :
  let evs := [EvDocument 1 sample_pdf (at_time 0);
              EvPollAnswer 1 [2]; EvPollAnswer 1 [0]] in
  user_answers (data_of 1 (run (rt := ascii_runtime) evs (initial_world [])))
  = Some [{| question_idx := 0; selected := 2 |};
          {| question_idx := 1; selected := 0 |}]
  ∧ question_idx {| question_idx := 1; selected := 0 |} = Z.of_nat 1.
Proof.
  intros evs.
  assert (Ha : user_answers (data_of 1 (run (rt := ascii_runtime) evs (initial_world [])))
               = Some [{| question_idx := 0; selected := 2 |};
                       {| question_idx := 1; selected := 0 |}]) by by vm_compute.
  split; [exact Ha|].
  exact (answers_numbered_by_arrival (rt := ascii_runtime) [] evs 1 _ 1 _ Ha eq_refl).
Defined.

(** X12.  [handle_poll_answer] sends nothing and touches only the answer
    list of the answering user: it appends the first selected option under
    the next index, creating the list when the key is missing; an answer
    without selected options (a retracted vote) raises [IndexError] after
    the list was created. *)
Theorem handle_poll_answer_appends (u : Z) (option_ids : list Z) (w : World) :
  let old := default [] (user_answers (data_of u w)) in
  let w' := snd (handle_poll_answer u option_ids w) in
  outbox w' = outbox w
  ∧ user_stats w' = user_stats w
  ∧ (∀ v, v ≠ u → data_of v w' = data_of v w)
  ∧ match option_ids with
    | choice :: _ =>
        fst (handle_poll_answer u option_ids w) = Ok ()
        ∧ data_of u w'
          = set_user_answers
              (old ++ [{| question_idx := len old; selected := choice |}])
              (data_of u w)
    | [] =>
        fst (handle_poll_answer u option_ids w) = Raise IndexError
        ∧ data_of u w' = set_user_answers old (data_of u w)
    end.
Proof.
  intros old w'. subst old w'. unfold handle_poll_answer.
  assert (E : get_data u w = (Ok (data_of u w), w)) by done.
  rewrite (bind_ok _ _ _ _ _ E).
  destruct (user_answers (data_of u w)) as [answers|] eqn:Ha; simpl default.
  - assert (E0 : (mret () : Bot unit) w = (Ok (), w)) by done.
    rewrite (bind_ok _ _ _ _ _ E0).
    rewrite (bind_ok _ _ _ _ _ (read_key_some u _ _ _ w Ha)).
    destruct option_ids as [|choice ids].
    + assert (E1 : py_index (@nil Z) 0 w = (Raise IndexError, w)) by done.
      rewrite (bind_raise _ _ _ _ _ E1). simpl.
      repeat (split; [done|]).
      destruct (data_of u w). simpl in Ha. by subst.
    + rewrite (bind_ok _ _ _ _ _ (py_index_run (choice :: ids) 0 choice w eq_refl)).
      unfold update_data. simpl.
      split; [done|]. split; [done|].
      split; [intros v Hv; by rewrite data_of_insert_ne|].
      split; [done|]. by rewrite data_of_insert.
  - set (w1 := with_user_data (λ m, <[u := set_user_answers [] (data_of u w)]> m) w).
    assert (E0 : update_data u (set_user_answers []) w = (Ok (), w1)) by done.
    rewrite (bind_ok _ _ _ _ _ E0).
    assert (Hd : data_of u w1 = set_user_answers [] (data_of u w))
      by apply data_of_insert.
    assert (Ha1 : user_answers (data_of u w1) = Some []) by by rewrite Hd.
    rewrite (bind_ok _ _ _ _ _ (read_key_some u _ _ _ w1 Ha1)).
    destruct option_ids as [|choice ids].
    + assert (E1 : py_index (@nil Z) 0 w1 = (Raise IndexError, w1)) by done.
      rewrite (bind_raise _ _ _ _ _ E1). simpl.
      split; [done|]. split; [done|].
      split; [intros v Hv; by apply data_of_insert_ne|]. done.
    + rewrite (bind_ok _ _ _ _ _ (py_index_run (choice :: ids) 0 choice w1 eq_refl)).
      unfold update_data. simpl.
      split; [done|]. split; [done|].
      split.
      { intros v Hv. rewrite data_of_insert_ne by done.
        by apply data_of_insert_ne. }
      split; [done|]. rewrite data_of_insert, Hd. done.
Qed.

(** ** Polls *)

Lemma polls_of_app (o1 o2 : list Action) :
  polls_of (o1 ++ o2) = polls_of o1 ++ polls_of o2.
Proof. apply List.filter_app. Qed.

Lemma sends_no_poll_ret {A} (a : A) : sends_no_poll (mret a).
Proof. done. Qed.

Lemma sends_no_poll_raise {A} (e : exn) : sends_no_poll (@raise A e).
Proof. done. Qed.

Lemma sends_no_poll_bind {A B} (m : Bot A) (f : A → Bot B) :
  sends_no_poll m → (∀ a, sends_no_poll (f a)) → sends_no_poll (m ≫= f).
Proof.
  intros Hm Hf w. unfold mbind, Bot_bind.
  specialize (Hm w). destruct (m w) as [[a|e] w']; simpl in *.
  - by rewrite Hf.
  - done.
Qed.

Lemma sends_no_poll_try {A} (m : Bot A) (h : exn → Bot A) :
  sends_no_poll m → (∀ e, sends_no_poll (h e)) → sends_no_poll (try_except m h).
Proof.
  intros Hm Hh w. unfold try_except.
  specialize (Hm w). destruct (m w) as [[a|e] w']; simpl in *.
  - done.
  - by rewrite Hh.
Qed.

(** Every call on the transport other than [send_poll]. *)
Lemma sends_no_poll_send (a : Action) : is_poll a = false → sends_no_poll (send a).
Proof.
  intros Ha w. unfold send. cbn [snd outbox with_outbox].
  rewrite polls_of_app. unfold polls_of at 2. simpl. rewrite Ha.
  apply app_nil_r.
Qed.

Lemma sends_no_poll_get_data (u : Z) : sends_no_poll (get_data u).
Proof. done. Qed.

Lemma sends_no_poll_update_data (u : Z) (f : UserData → UserData) :
  sends_no_poll (update_data u f).
Proof. done. Qed.

Lemma sends_no_poll_get_stats : sends_no_poll get_stats.
Proof. done. Qed.

Lemma sends_no_poll_update_stats (f : gmap Z Stats → gmap Z Stats) :
  sends_no_poll (update_stats f).
Proof. done. Qed.

Lemma sends_no_poll_randbelow (n : nat) : sends_no_poll (randbelow n).
Proof. done. Qed.

Lemma sends_no_poll_call_pipeline (qg : Pipeline) (i : nat) (prompt : str) :
  sends_no_poll (call_pipeline qg i prompt).
Proof. done. Qed.

Lemma sends_no_poll_from_external {A} (r : option A) :
  sends_no_poll (from_external r).
Proof. by destruct r. Qed.

Lemma sends_no_poll_py_index {A} (l : list A) (i : Z) : sends_no_poll (py_index l i).
Proof. intros w. by rewrite py_index_reads. Qed.

Lemma sends_no_poll_py_assign {A} (l : list A) (i : Z) (v : A) :
  sends_no_poll (py_assign l i v).
Proof. intros w. unfold py_assign. by destruct (_ || _). Qed.

(** The loop over a batch stops at the first constructor call, before
    [send_poll]. *)
Lemma sends_no_poll_send_polls (u : Z) (batch : list Question) :
  sends_no_poll (send_polls u batch).
Proof. intros w. by rewrite send_polls_run. Qed.

Create HintDb polls discriminated.

#[export] Hint Resolve sends_no_poll_ret sends_no_poll_raise
  sends_no_poll_get_data sends_no_poll_update_data sends_no_poll_get_stats
  sends_no_poll_update_stats sends_no_poll_randbelow
  sends_no_poll_call_pipeline sends_no_poll_from_external
  sends_no_poll_py_index sends_no_poll_py_assign
  sends_no_poll_send_polls : polls.

#[export] Hint Extern 1 (sends_no_poll (send _)) =>
  apply sends_no_poll_send; reflexivity : polls.

Ltac polls :=
  repeat first
    [ progress auto with polls
    | apply sends_no_poll_bind; [|intros ?]
    | apply sends_no_poll_try; [|intros ?]
    | match goal with
      | |- sends_no_poll (match ?x with _ => _ end) => destruct x
      | |- sends_no_poll (let (_, _) := ?x in _) => destruct x
      end ].

Lemma sends_no_poll_read_key {A} (u : Z) (key : string)
    (field : UserData → option A) :
  sends_no_poll (read_key u key field).
Proof. unfold read_key. polls. Qed.

#[export] Hint Resolve sends_no_poll_read_key : polls.

Lemma sends_no_poll_sample_loop {A} (k : nat) :
  ∀ (n : nat) (pool : list A), sends_no_poll (sample_loop k n pool).
Proof. induction k as [|k IH]; intros n pool; simpl; polls. Qed.

Lemma sends_no_poll_random_sample {A} (population : list A) (k : nat) :
  sends_no_poll (random_sample population k).
Proof. unfold random_sample. polls. apply sends_no_poll_sample_loop. Qed.

Lemma sends_no_poll_random_randint (a b : Z) : sends_no_poll (random_randint a b).
Proof. unfold random_randint. polls. Qed.

Lemma sends_no_poll_count_correct (u : Z) (answers : list Answer) :
  sends_no_poll (count_correct u answers).
Proof. intros w. by rewrite count_correct_reads. Qed.

#[export] Hint Resolve sends_no_poll_random_sample sends_no_poll_random_randint
  sends_no_poll_count_correct : polls.

Lemma sends_no_poll_show_results (u : Z) : sends_no_poll (show_results u).
Proof. unfold show_results. polls. Qed.

#[export] Hint Resolve sends_no_poll_show_results : polls.

Lemma sends_no_poll_send_question_batch (u : Z) :
  sends_no_poll (send_question_batch u).
Proof. unfold send_question_batch, send_batch_and_advance. polls. Qed.

#[export] Hint Resolve sends_no_poll_send_question_batch : polls.

Lemma sends_no_poll_next_batch (u : Z) : sends_no_poll (next_batch u).
Proof. unfold next_batch. polls. Qed.

Lemma sends_no_poll_start (u : Z) (t_new now : Z) :
  sends_no_poll (start u t_new now).
Proof. unfold start. polls. Qed.

Lemma sends_no_poll_handle_poll_answer (u : Z) (ids : list Z) :
  sends_no_poll (handle_poll_answer u ids).
Proof. unfold handle_poll_answer. polls. Qed.

Section PollRuns.
Context {rt : PyRuntime}.

Lemma sends_no_poll_generate_loop (qg : Pipeline) (context : str) (n : nat) :
  ∀ i questions, sends_no_poll (generate_loop qg context i n questions).
Proof.
  induction n as [|n IH]; intros i questions; simpl;
    unfold generate_options, correct_option; polls.
Qed.

Lemma sends_no_poll_handle_question_count (u : Z) (qg : Pipeline) (text : str) :
  sends_no_poll (handle_question_count u qg text).
Proof.
  pose proof sends_no_poll_generate_loop.
  unfold handle_question_count, count_session, generate_questions. polls.
Qed.

Lemma sends_no_poll_handle_document (u : Z) (doc : Document) (clk : DocClock) :
  sends_no_poll (handle_document u doc clk).
Proof.
  unfold handle_document, process_document, extract_text_from_file. polls.
Qed.

Lemma sends_no_poll_handle (e : Event) : sends_no_poll (handle e).
Proof.
  destruct e; simpl;
    auto using sends_no_poll_start, sends_no_poll_handle_document,
      sends_no_poll_handle_question_count, sends_no_poll_next_batch,
      sends_no_poll_handle_poll_answer.
Qed.

Lemma run_cons (e : Event) (evs : list Event) (w : World) :
  run (e :: evs) w = run evs (step w e).
Proof. done. Qed.

Lemma run_polls (evs : list Event) :
  ∀ w, polls_of (outbox (run evs w)) = polls_of (outbox w).
Proof.
  induction evs as [|e evs IH]; intros w; [done|].
  rewrite run_cons, IH. apply sends_no_poll_handle.
Qed.

(** An accepted count whose questions are generated goes on to the first
    batch with the questions stored and the cursor at 0. *)
Lemma count_session_reaches_batch (u : Z) (qg : Pipeline) (text : str) (w : World)
    (n : Z) (text_content : str) (qs : list Question) :
  int_of_str text = Some n →
  MIN_QUESTIONS ≤ n ≤ default MIN_QUESTIONS (max_questions (data_of u w)) →
  file_text (data_of u w) = Some text_content →
  let w1 := with_outbox (λ o, o ++ [ReplyText u TxtGenerating]) w in
  fst (generate_questions qg text_content n w1) = Ok qs →
  ∃ w2, count_session u qg text w = send_question_batch u w2
        ∧ outbox w2 = outbox (snd (generate_questions qg text_content n w1))
                      ++ [DeleteMessage u]
        ∧ current_questions (data_of u w2) = Some qs
        ∧ total_questions (data_of u w2) = Some (len qs)
        ∧ current_index (data_of u w2) = Some 0.
Proof.
  intros Hn [Hlo Hhi] Hfile w1 Hgen. unfold count_session. rewrite Hn.
  assert (E : get_data u w = (Ok (data_of u w), w)) by done.
  rewrite (bind_ok _ _ _ _ _ E).
  rewrite (proj2 (Z.leb_le _ _) Hlo), (proj2 (Z.leb_le _ _) Hhi). simpl.
  rewrite (bind_ok _ _ _ _ _ (read_key_some u "file_text" file_text _ w Hfile)).
  assert (E1 : send (ReplyText u TxtGenerating) w = (Ok (), w1)) by done.
  rewrite (bind_ok _ _ _ _ _ E1).
  destruct (generate_questions qg text_content n w1) as [[qs'|e] w2] eqn:Eg;
    simpl in Hgen; [|done].
  injection Hgen as ->. rewrite (bind_ok _ _ _ _ _ Eg).
  set (w3 := with_user_data
               (λ m, <[u := set_total_questions (len qs) (data_of u w2)]> m) w2).
  assert (E3 : update_data u (set_total_questions (len qs)) w2 = (Ok (), w3)) by done.
  rewrite (bind_ok _ _ _ _ _ E3).
  set (w4 := with_user_data
               (λ m, <[u := set_current_questions qs (data_of u w3)]> m) w3).
  assert (E4 : update_data u (set_current_questions qs) w3 = (Ok (), w4)) by done.
  rewrite (bind_ok _ _ _ _ _ E4).
  set (w5 := with_user_data
               (λ m, <[u := set_current_index 0 (data_of u w4)]> m) w4).
  assert (E5 : update_data u (set_current_index 0) w4 = (Ok (), w5)) by done.
  rewrite (bind_ok _ _ _ _ _ E5).
  set (w6 := with_outbox (λ o, o ++ [DeleteMessage u]) w5).
  assert (E6 : send (DeleteMessage u) w5 = (Ok (), w6)) by done.
  rewrite (bind_ok _ _ _ _ _ E6).
  exists w6. split; [done|]. split; [done|].
  assert (Hd : data_of u w6
               = set_current_index 0
                   (set_current_questions qs
                      (set_total_questions (len qs) (data_of u w2)))).
  { change (data_of u w6) with (data_of u w5).
    unfold w5. rewrite data_of_insert.
    unfold w4. rewrite data_of_insert.
    unfold w3. by rewrite data_of_insert. }
  by rewrite Hd.
Qed.
End PollRuns.

(** X13.  No run of the bot ever sends a poll: every handler that reaches
    the loop of [send_question_batch] with a question in the batch stops
    at the first constructor call, before [send_poll], and no other handler
    calls [send_poll].  In particular the outbox of a run from the start
    of the process holds no poll. *)
Theorem run_sends_no_poll {rt : PyRuntime}
    (seed : list nat) (evs : list Event) (w : World) :
  polls_of (outbox (run evs w)) = polls_of (outbox w)
  ∧ polls_of (outbox (run evs (initial_world seed))) = [].
Proof. split; [apply run_polls|by rewrite run_polls]. Qed.

(** X14.  A count that is accepted, with a text stored and at least one
    question generated, makes [handle_question_count] fail with
    [TypeError] at the first poll, which its [except ValueError] does not
    catch: the questions, their number and the cursor 0 are stored, the
    progress message is deleted, and neither a poll nor anything else is
    sent after that. *)
Theorem handle_question_count_fails_at_first_poll {rt : PyRuntime}
    (u : Z) (qg : Pipeline) (text : str) (w : World) (n : Z) (text_content : str)
    (q : Question) (qs : list Question) :
  int_of_str text = Some n →
  MIN_QUESTIONS ≤ n ≤ default MIN_QUESTIONS (max_questions (data_of u w)) →
  file_text (data_of u w) = Some text_content →
  let w1 := with_outbox (λ o, o ++ [ReplyText u TxtGenerating]) w in
  fst (generate_questions qg text_content n w1) = Ok (q :: qs) →
  let r := handle_question_count u qg text w in
  fst r = Raise TypeError
  ∧ outbox (snd r)
    = outbox (snd (generate_questions qg text_content n w1)) ++ [DeleteMessage u]
  ∧ polls_of (outbox (snd r)) = polls_of (outbox w)
  ∧ current_questions (data_of u (snd r)) = Some (q :: qs)
  ∧ total_questions (data_of u (snd r)) = Some (len (q :: qs))
  ∧ current_index (data_of u (snd r)) = Some 0.
Proof.
  intros Hn Hrange Hfile w1 Hgen r.
  destruct (count_session_reaches_batch u qg text w n text_content (q :: qs)
              Hn Hrange Hfile Hgen) as (w2 & Hrun & Hout & Hq & Ht & Hc).
  assert (Hr : r = (Raise TypeError, w2)).
  { unfold r, handle_question_count, try_except. rewrite Hrun.
    rewrite (send_question_batch_raises u w2 (q :: qs) 0 Hq Hc); [done|].
    unfold len. simpl. lia. }
  split; [by rewrite Hr|]. split; [by rewrite Hr|].
  split; [apply sends_no_poll_handle_question_count|].
  by rewrite Hr.
Qed.

(** An upload, then the count 5 with a model that answers every call. *)
Lemma handle_question_count_fails_at_first_poll_witness :
  let w := step (rt := ascii_runtime) (initial_world [])
             (EvDocument 1 sample_pdf (at_time 0)) in
  let r := handle_question_count (rt := ascii_runtime) 1
             (answering [py "What pumps blood?"]) (py "5") w in
  fst r = Raise TypeError
  ∧ last (outbox (snd r)) = Some (DeleteMessage 1)
  ∧ polls_of (outbox (snd r)) = []
  ∧ total_questions (data_of 1 (snd r)) = Some 5
  ∧ current_index (data_of 1 (snd r)) = Some 0.
Proof.
  intros w r.
  assert (Hfile : ∃ text_content, file_text (data_of 1 w) = Some text_content)
    by (eexists; by vm_compute).
  destruct Hfile as [text_content Hfile].
  set (w1 := with_outbox (λ o, o ++ [ReplyText 1 TxtGenerating]) w).
  destruct (fst (generate_questions (rt := ascii_runtime)
                   (answering [py "What pumps blood?"]) text_content 5 w1))
    as [[|q qs]|e] eqn:Eg.
  - vm_compute in Hfile. injection Hfile as <-. by vm_compute in Eg.
  - destruct (handle_question_count_fails_at_first_poll (rt := ascii_runtime)
                1 (answering [py "What pumps blood?"]) (py "5") w 5 text_content
                q qs) as (Hr & Hout & Hpolls & _ & Ht & Hc);
      [by vm_compute|by vm_compute|exact Hfile|exact Eg|].
    fold r in Hr, Hout, Hpolls, Ht, Hc.
    split; [exact Hr|]. split; [rewrite Hout; apply last_snoc|].
    split; [rewrite Hpolls; by vm_compute|].
    split; [|exact Hc]. rewrite Ht.
    vm_compute in Hfile. injection Hfile as <-.
    vm_compute in Eg. injection Eg as <- <-. reflexivity.
  - vm_compute in Hfile. injection Hfile as <-. by vm_compute in Eg.
Defined.

(** X20.  An exception raised while the model is built or called leaves
    [handle_question_count], except a [ValueError]: that one is caught by
    the handler's [except ValueError], so the user who sent a valid count
    is told to send a valid number. *)
Theorem handle_question_count_generation_fails {rt : PyRuntime}
    (u : Z) (qg : Pipeline) (text : str) (w : World) (n : Z) (text_content : str)
    (e : exn) :
  int_of_str text = Some n →
  MIN_QUESTIONS ≤ n ≤ default MIN_QUESTIONS (max_questions (data_of u w)) →
  file_text (data_of u w) = Some text_content →
  let w1 := with_outbox (λ o, o ++ [ReplyText u TxtGenerating]) w in
  fst (generate_questions qg text_content n w1) = Raise e →
  let w2 := snd (generate_questions qg text_content n w1) in
  handle_question_count u qg text w
  = match e with
    | ValueError => (Ok (), with_outbox (λ o, o ++ [ReplyText u TxtNotANumber]) w2)
    | _ => (Raise e, w2)
    end.
Proof.
  intros Hn [Hlo Hhi] Hfile w1 Hgen w2.
  unfold handle_question_count, try_except, count_session. rewrite Hn.
  assert (E : get_data u w = (Ok (data_of u w), w)) by done.
  rewrite (bind_ok _ _ _ _ _ E).
  rewrite (proj2 (Z.leb_le _ _) Hlo), (proj2 (Z.leb_le _ _) Hhi). simpl.
  rewrite (bind_ok _ _ _ _ _ (read_key_some u "file_text" file_text _ w Hfile)).
  assert (E1 : send (ReplyText u TxtGenerating) w = (Ok (), w1)) by done.
  rewrite (bind_ok _ _ _ _ _ E1).
  unfold w2.
  destruct (generate_questions qg text_content n w1) as [[qs|e'] w'] eqn:Eg;
    simpl in Hgen; [done|].
  injection Hgen as ->. rewrite (bind_raise _ _ _ _ _ Eg).
  by destruct e.
Qed.

(** An upload, then the count 5 while the model cannot be loaded. *)
Lemma handle_question_count_generation_fails_witness :
  let w := step (rt := ascii_runtime) (initial_world [])
             (EvDocument 1 sample_pdf (at_time 0)) in
  let qg := {| construction := Some ValueError; generated := λ _ _, Ok [] |} in
  let r := handle_question_count (rt := ascii_runtime) 1 qg (py "5") w in
  fst r = Ok ()
  ∧ outbox (snd r)
    = outbox w ++ [ReplyText 1 TxtGenerating; ReplyText 1 TxtNotANumber].
Proof.
  intros w qg r. unfold r.
  rewrite (handle_question_count_generation_fails (rt := ascii_runtime)
             1 qg (py "5") w 5 (py "heart") ValueError);
    [|by vm_compute..].
  split; [done|]. by vm_compute.
Defined.

(** ** Generated questions and options *)

Section MoreGeneration.
Context {rt : PyRuntime}.

Lemma generate_loop_texts (qg : Pipeline) (context : str) (n : nat) :
  ∀ (i : nat) (questions : list Question) (w : World) (qs : list Question),
    fst (generate_loop qg context i n questions w) = Ok qs →
    question <$> qs
    = (question <$> questions) ++ kept_texts qg (model_prompt context) i n.
Proof.
  induction n as [|n IH]; intros i questions w qs; simpl.
  - intros [= <-]. by rewrite app_nil_r.
  - set (w1 := with_qg_calls (λ c, c ++ [model_prompt context]) w).
    destruct (qg i (model_prompt context)) as [[|generated_text result]|e] eqn:Eq.
    all: [> rewrite (bind_ok _ _ w _ w1) by (unfold call_pipeline; by rewrite Eq) ..
          | rewrite (bind_raise _ _ w e w1)
              by (unfold call_pipeline; by rewrite Eq) ].
    + apply IH.
    + destruct (generate_options_run context w1)
        as (opts & w2 & Hopts & _ & Hlen & _).
      rewrite (bind_ok _ _ _ _ _ Hopts).
      destruct (random_randint_spec 0 3 w2) as (idx & Hidx & Hrange); [lia|].
      rewrite (bind_ok _ _ _ _ _ Hidx).
      rewrite (bind_ok _ _ _ _ _ (correct_option_run _ _)).
      rewrite (bind_ok _ _ _ _ _
                 (py_assign_run opts idx _ _ ltac:(unfold len; lia))).
      intros Hrun. rewrite (IH _ _ _ _ Hrun).
      rewrite fmap_app, <- app_assoc. done.
    + done.
Qed.

Lemma runs_from_spec (p : char → bool) (s : str) :
  ∀ (cur r : str),
    Forall (λ c, p c = true) cur →
    r ∈ runs_from p cur s →
    r ≠ [] ∧ Forall (λ c, p c = true) r
    ∧ ∃ pre post, rev cur ++ s = pre ++ r ++ post.
Proof.
  induction s as [|c s IH]; intros cur r Hcur; simpl.
  - destruct cur as [|c0 cur]; [by intros ?%elem_of_nil|].
    intros ->%list_elem_of_singleton. split; [|split].
    + intros Hnil. apply (f_equal (@length _)) in Hnil.
      rewrite length_rev in Hnil. done.
    + by apply Forall_rev.
    + exists [], []. by rewrite !app_nil_r.
  - destruct (p c) eqn:Hp.
    + intros Hr. destruct (IH (c :: cur) r) as (Hne & Hall & pre & post & E);
        [by constructor|done|].
      split; [done|]. split; [done|]. exists pre, post.
      rewrite <- E. simpl. by rewrite <- app_assoc.
    + assert (Hrest : r ∈ runs_from p [] s →
                r ≠ [] ∧ Forall (λ c, p c = true) r
                ∧ ∃ pre post, rev cur ++ c :: s = pre ++ r ++ post).
      { intros Hr. destruct (IH [] r) as (Hne & Hall & pre & post & E);
          [constructor|done|].
        split; [done|]. split; [done|]. exists (rev cur ++ c :: pre), post.
        simpl in E. rewrite E, <- app_assoc. done. }
      destruct cur as [|c0 cur]; [done|].
      intros [->|Hr]%elem_of_cons; [|by apply Hrest].
      split; [|split].
      * intros Hnil. apply (f_equal (@length _)) in Hnil.
        rewrite length_rev in Hnil. done.
      * by apply Forall_rev.
      * by exists [], (c :: s).
Qed.

Lemma runs_from_word (p : char → bool) (word : str) :
  ∀ (cur s : str),
    Forall (λ c, p c = true) word →
    runs_from p cur (word ++ s) = runs_from p (rev word ++ cur) s.
Proof.
  induction word as [|c word IH]; intros cur s Hall; [done|].
  apply Forall_cons in Hall as [Hc Hall]. simpl. rewrite Hc, IH by done.
  by rewrite <- app_assoc.
Qed.

(** Splitting a join of non-empty words gives the words back. *)
Lemma runs_join (p : char → bool) (sep : char) (words : list str) :
  p sep = false →
  Forall (λ word, word ≠ [] ∧ Forall (λ c, p c = true) word) words →
  runs p (str_join [sep] words) = words.
Proof.
  intros Hsep Hall. unfold runs.
  induction Hall as [|word words [Hne Hword] Hall IH]; [done|].
  assert (Hrev : rev word ≠ []).
  { intros Hnil. apply Hne. by rewrite <- (rev_involutive word), Hnil. }
  destruct words as [|word' words].
  - simpl. rewrite <- (app_nil_r word) at 1.
    rewrite runs_from_word, app_nil_r by done. simpl.
    destruct (rev word) eqn:E; [done|]. by rewrite <- E, rev_involutive.
  - change (str_join [sep] (word :: word' :: words))
      with (word ++ sep :: str_join [sep] (word' :: words)).
    rewrite runs_from_word, app_nil_r by done. cbn [runs_from]. rewrite Hsep.
    destruct (rev word) eqn:E; [done|]. rewrite <- E, rev_involutive.
    by rewrite IH.
Qed.

Lemma runs_words (p : char → bool) (s : str) :
  Forall (λ word, word ≠ [] ∧ Forall (λ c, p c = true) word) (runs p s).
Proof.
  apply Forall_forall. intros r Hr.
  destruct (runs_from_spec p s [] r) as (Hne & Hall & _); [constructor|done|].
  done.
Qed.
End MoreGeneration.

(** X15.  [generate_questions] keeps one question per attempt whose model
    output is not empty, in the order of the attempts; its text is the
    first generated text with surrounding whitespace removed.  It keeps
    nothing when the requested number is zero or negative, and fails only
    when building or calling the model raises. *)
Theorem generate_questions_texts {rt : PyRuntime}
    (qg : Pipeline) (context : str) (num_questions : Z) (w : World) :
  match fst (generate_questions qg context num_questions w) with
  | Ok qs =>
      question <$> qs
      = kept_texts qg (model_prompt context) 0 (Z.to_nat num_questions)
  | Raise e => construction qg = Some e
               ∨ ∃ j, qg j (model_prompt context) = Raise e
  end.
Proof.
  destruct (generate_questions_spec qg context num_questions w) as [_ Hres].
  destruct (fst (generate_questions qg context num_questions w)) as [qs|e] eqn:E;
    [|done].
  unfold generate_questions in E. destruct (construction qg); [done|].
  by rewrite (generate_loop_texts _ _ _ _ _ _ _ E).
Qed.

(** X16.  Every option returned by [generate_options] is a piece of the
    text, longer than 5 characters and made of word characters only, or a
    word of the fallback vocabulary, which is used only when the text has
    fewer than 4 such tokens. *)
Theorem generate_options_from_text {rt : PyRuntime} (context : str) (w : World) :
  ∃ opts,
    fst (generate_options context w) = Ok opts
    ∧ Forall (λ o,
        (5 < len o ∧ Forall (λ c, is_word c = true) o
         ∧ ∃ pre post, context = pre ++ o ++ post)
        ∨ (o ∈ fallback_words ∧ len (long_words context) < 4)) opts.
Proof.
  destruct (generate_options_run context w) as (opts & w' & Hrun & _ & _ & Hsub).
  exists opts. rewrite Hrun. split; [done|].
  apply Forall_forall. intros o Ho.
  assert (Hin : o ∈ candidates context) by (eapply elem_of_submseteq; eauto).
  assert (Hlong : o ∈ long_words context →
            5 < len o ∧ Forall (λ c, is_word c = true) o
            ∧ ∃ pre post, context = pre ++ o ++ post).
  { unfold long_words, findall_words, runs.
    intros [Hlen Htok]%list_elem_of_filter.
    destruct (runs_from_spec is_word context [] o) as (_ & Hall & Hsubstr);
      [constructor|done|].
    done. }
  unfold candidates in Hin.
  destruct (Z.ltb_spec (len (long_words context)) 4).
  - apply elem_of_app in Hin as [Hin|Hin]; [left; auto|right; auto].
  - left. auto.
Qed.

(** X17.  When the space is a whitespace character of the runtime, the
    chunk placed in the prompt contains exactly the first 300 words of the
    text: splitting it gives these words back, and a text cut to its chunk
    has the same prompt. *)
Theorem model_prompt_chunk_words {rt : PyRuntime} (context : str) :
  isspace chr_space = true →
  let chunk := str_join [chr_space] (take 300 (str_split context)) in
  str_split chunk = take 300 (str_split context)
  ∧ model_prompt chunk = model_prompt context.
Proof.
  intros Hspace chunk.
  assert (Hsplit : str_split chunk = take 300 (str_split context)).
  { unfold chunk, str_split. apply runs_join; [by rewrite Hspace|].
    apply Forall_take, runs_words. }
  split; [done|]. unfold model_prompt. rewrite Hsplit.
  by rewrite take_take, Nat.min_id.
Qed.

Lemma model_prompt_chunk_words_witness :
  let text := py "  the heart   pumps blood " in
  str_split (rt := ascii_runtime)
    (str_join [chr_space] (take 300 (str_split (rt := ascii_runtime) text)))
  = [py "the"; py "heart"; py "pumps"; py "blood"].
Proof.
  intros text.
  destruct (model_prompt_chunk_words (rt := ascii_runtime) text eq_refl) as [-> _].
  by vm_compute.
Defined.

Section StripProperties.
Context {rt : PyRuntime}.

Lemma lstrip_head (s : str) (c : char) :
  head (lstrip s) = Some c → isspace c = false.
Proof.
  induction s as [|c0 s IH]; simpl; [done|].
  destruct (isspace c0) eqn:E; [done|]. simpl. by intros [= <-].
Qed.

Lemma lstrip_suffix (s : str) : ∃ pre, s = pre ++ lstrip s.
Proof.
  induction s as [|c0 s [pre IH]]; simpl; [by exists []|].
  destruct (isspace c0).
  - exists (c0 :: pre). simpl. by rewrite <- IH.
  - by exists [].
Qed.

Lemma head_rev {A} (l : list A) : head (rev l) = last l.
Proof.
  induction l as [|x l IH] using rev_ind; [done|].
  by rewrite rev_app_distr, last_snoc.
Qed.

Lemma str_strip_trimmed (s : str) : trimmed (str_strip s).
Proof.
  unfold trimmed, str_strip.
  set (t := lstrip s). set (r := lstrip (rev t)).
  split; intros c Hc.
  - destruct (lstrip_suffix (rev t)) as [pre Hpre]. fold r in Hpre.
    apply (f_equal (@rev _)) in Hpre.
    rewrite rev_involutive, rev_app_distr in Hpre.
    apply (lstrip_head s c). fold t. rewrite Hpre.
    destruct (rev r); [done|]. done.
  - apply (lstrip_head (rev t) c). fold r.
    rewrite <- (rev_involutive r), head_rev. done.
Qed.

Lemma kept_texts_trimmed (qg : Pipeline) (prompt : str) (n : nat) :
  ∀ i, Forall trimmed (kept_texts qg prompt i n).
Proof.
  induction n as [|n IH]; intros i; simpl; [constructor|].
  destruct (qg i prompt) as [[|g r]|e]; [apply IH| |constructor].
  constructor; [apply str_strip_trimmed|apply IH].
Qed.
End StripProperties.

(** X18.  The text of every question returned by [generate_questions]
    neither begins nor ends with a whitespace character. *)
Theorem generate_questions_trimmed {rt : PyRuntime}
    (qg : Pipeline) (context : str) (num_questions : Z) (w : World)
    (qs : list Question) :
  fst (generate_questions qg context num_questions w) = Ok qs →
  Forall (λ q, trimmed (question q)) qs.
Proof.
  unfold generate_questions. destruct (construction qg); [done|]. intros Hrun.
  pose proof (generate_loop_texts _ _ _ _ _ _ _ Hrun) as Htexts.
  simpl in Htexts.
  pose proof (kept_texts_trimmed qg (model_prompt context)
                (Z.to_nat num_questions) 0) as Hall.
  rewrite <- Htexts in Hall. apply Forall_forall. intros q Hq.
  apply (proj1 (Forall_forall _ _) Hall). by apply list_elem_of_fmap_2.
Qed.

(** A model output with spaces and a newline around the question. *)
Lemma generate_questions_trimmed_witness :
  ∃ q,
    fst (generate_questions (rt := ascii_runtime)
           (answering [py "  What pumps blood? " ++ [chr_newline]])
           (py "the heart pumps blood") 1 (initial_world []))
    = Ok [q]
    ∧ question q = py "What pumps blood?"
    ∧ trimmed (rt := ascii_runtime) (question q).
Proof.
  eexists. split; [by vm_compute|]. split; [by vm_compute|].
  refine (Forall_inv
            (generate_questions_trimmed (rt := ascii_runtime)
               (answering [py "  What pumps blood? " ++ [chr_newline]])
               (py "the heart pumps blood") 1 (initial_world []) [_] _)).
  by vm_compute.
Defined.

(** ** The file type *)

Lemma split_from_no_sep (sep : char) (s : str) :
  sep ∉ s → ∀ cur, split_from sep cur s = [rev cur ++ s].
Proof.
  induction s as [|c s IH]; intros Hs cur; simpl.
  - by rewrite app_nil_r.
  - apply not_elem_of_cons in Hs as [Hc Hs].
    destruct (N.eqb_spec c sep) as [->|_]; [done|].
    rewrite IH by done. simpl. by rewrite <- app_assoc.
Qed.

Lemma split_from_last (sep : char) (base ext : str) :
  sep ∉ ext →
  ∀ cur, List.last (split_from sep cur (base ++ sep :: ext)) [] = ext.
Proof.
  intros Hext. induction base as [|c base IH]; intros cur; simpl.
  - rewrite N.eqb_refl, split_from_no_sep by done. done.
  - destruct (N.eqb c sep); [|apply IH].
    specialize (IH []).
    destruct (split_from sep [] (base ++ sep :: ext)) eqn:E; [|done].
    destruct (split_from_head sep (base ++ sep :: ext) []) as [rest Hrest].
    congruence.
Qed.

(** X19.  The file type tested by [handle_document] is the lower-cased
    text after the last dot of the file name, and the whole lower-cased
    name when it has no dot. *)
Theorem file_type_of_last_extension {rt : PyRuntime} (base ext : str) :
  chr_dot ∉ ext →
  file_type_of (base ++ chr_dot :: ext) = lower ext
  ∧ file_type_of ext = lower ext.
Proof.
  intros Hext. unfold file_type_of, str_split_on. split.
  - by rewrite split_from_last.
  - by rewrite split_from_no_sep.
Qed.

(** An archive of slides named in capitals, and a file called pdf. *)
Lemma file_type_of_last_extension_witness :
  file_type_of (rt := ascii_runtime) (py "week.1.slides.PPTX") = py "pptx"
  ∧ file_type_of (rt := ascii_runtime) (py "PDF") = py "pdf".
Proof.
  split.
  - change (py "week.1.slides.PPTX")
      with (py "week.1.slides" ++ chr_dot :: py "PPTX").
    destruct (file_type_of_last_extension (rt := ascii_runtime)
                (py "week.1.slides") (py "PPTX")) as [-> _];
      first [by vm_compute | apply (bool_decide_unpack _); by vm_compute].
  - destruct (file_type_of_last_extension (rt := ascii_runtime)
                [] (py "PDF")) as [_ ->];
      first [by vm_compute | apply (bool_decide_unpack _); by vm_compute].
Defined.
